(** * A shallow embedding of the TXMB validator (validateFasta.py,
    validateMetadataRecord.py, validateMetadataTable.py, validateTXMB.py).

    Python strings are modelled as Rocq [string]s (sequences of 8-bit
    characters); every test string used below is plain ASCII, on which the
    two agree.  Error messages are modelled by the inductive [msg]: one
    constructor per message template of the source, carrying the values
    the template is formatted with. *)

From Stdlib Require Import String Ascii List Bool Arith ZArith Lia Permutation.
From stdpp Require Import base gmap strings.
Import ListNotations.
Open Scope string_scope.
Open Scope list_scope.

(** ** Python runtime: exceptions, character classes, regex anchors *)

Inductive py_exc :=
| KeyError
| IndexError
| TypeError
| FileNotFoundError
| OSError.

Inductive exc (A : Type) :=
| Ok (a : A)
| Raise (e : py_exc).
Arguments Ok {A} a.
Arguments Raise {A} e.

Definition exc_bind {A B} (m : exc A) (k : A -> exc B) : exc B :=
  match m with
  | Ok a => k a
  | Raise e => Raise e
  end.

Declare Scope exc_scope.
Notation "x <- m ;; k" := (exc_bind m (fun x => k))
  (at level 100, m at next level, right associativity) : exc_scope.
Open Scope exc_scope.

Definition char_in (set : string) (c : ascii) : bool :=
  existsb (Ascii.eqb c) (list_ascii_of_string set).

(** [str.isspace] and the [\s] class of [re] on ASCII characters:
    tab, newline, vertical tab, form feed, carriage return, the four
    separators 0x1c-0x1f and space. *)
Definition py_isspace (c : ascii) : bool :=
  let n := nat_of_ascii c in
  (Nat.leb 9 n && Nat.leb n 13) || (Nat.leb 28 n && Nat.leb n 31) || Nat.eqb n 32.

Definition nl : ascii := ascii_of_nat 10.

(** [$] of Python's [re] (no MULTILINE): succeeds at the end of the
    string or just before a newline that ends it. *)
Definition py_dollar (rest : string) : bool :=
  match rest with
  | EmptyString => true
  | String c EmptyString => Ascii.eqb c nl
  | _ => false
  end.

(** [re.match("^[C]*$", s)]: greedy star over class [p], then [$]. *)
Fixpoint match_star_dollar (p : ascii -> bool) (s : string) : bool :=
  match s with
  | EmptyString => true
  | String c rest => if p c then match_star_dollar p rest else py_dollar s
  end.

(** [re.match("^[C]+$", s)]. *)
Definition match_plus_dollar (p : ascii -> bool) (s : string) : bool :=
  match s with
  | EmptyString => false
  | String c rest => p c && match_star_dollar p rest
  end.

(** [re.match("[C]", s)]: the match is anchored at the start of [s]. *)
Definition match_first (p : ascii -> bool) (s : string) : bool :=
  match s with
  | EmptyString => false
  | String c _ => p c
  end.

(** Python list operations. *)
Fixpoint py_index (x : string) (l : list string) : option nat :=
  match l with
  | [] => None
  | y :: l' => if String.eqb x y then Some 0
               else option_map S (py_index x l')
  end.

Fixpoint py_pop (i : nat) (l : list string) : exc (string * list string) :=
  match l, i with
  | [], _ => Raise IndexError
  | y :: l', 0 => Ok (y, l')
  | y :: l', S i' => p <- py_pop i' l' ;; Ok (fst p, y :: snd p)
  end.

(** Python dicts keep insertion order; assignment to an existing key
    updates it in place. *)
Definition pydict := list (string * string).

Fixpoint dict_get (k : string) (d : pydict) : option string :=
  match d with
  | [] => None
  | (k', v) :: d' => if String.eqb k k' then Some v else dict_get k d'
  end.

Fixpoint dict_set (k v : string) (d : pydict) : pydict :=
  match d with
  | [] => [(k, v)]
  | (k', v') :: d' => if String.eqb k k' then (k, v) :: d'
                      else (k', v') :: dict_set k v d'
  end.

Definition dict_subscript (k : string) (d : pydict) : exc string :=
  match dict_get k d with
  | Some v => Ok v
  | None => Raise KeyError
  end.

(** ** Error messages *)

Inductive msg :=
(* validateFasta.py *)
| ExcObject (e : py_exc)                         (* fasta_errors.append(e) *)
| TwoConsecutiveIdLines (linecount : nat)
| TwoConsecutiveSeqLines (linecount : nat)
| IdentifiersNotInFasta (listed : list string)   (* cumulative message *)
| OddNumberOfLines
| IdentifierNoMatch (identifier : string) (linecount : nat)
| SeqWhitespace (linecount : nat)
| SeqNonNucleotide (linecount : nat)
| SeqNull (linecount : nat)
| SeqUndiagnosed (linecount : nat)
(* validateMetadataRecord.py *)
| RecordLineUnprocessable (line : string)
| RequiredFieldNotFound                          (* the '{0}' is never formatted *)
| EmptyMandatoryValue (field : string)
| DataTypeError (field value type_name : string)
| RegexMismatch (field regex : string)
| FieldLengthExceeded (field : string)
| CustomColumnsUndefined
| ExpectedManifestLine (key : string)
| RecordNotFound (filename : string)
(* validateMetadataTable.py *)
| MandatoryHeaderMissing (header : string)
| MandatoryHeadersNotFound (mandatory : list string)
| CustomColumnsUndeclared
| CustomColumnsUnused
| CustomCountMismatch
| CustomHeaderNotInTable (header : string)
| TableHeadersNotInRecord (leftover : list string)
| RangeWithoutAccession (range : string)
| RangeNotString
| InvalidRange (range : string).

(** ** validateFasta.py *)
Module Fasta.

Definition nucleotide (c : ascii) : bool :=
  char_in "ATCGactgRYSWKMBDHVryswkmbdhvNn" c.

Definition non_nucleotide (c : ascii) : bool :=
  char_in "efijlopquxzEFIJLOPQUXZ" c.

(** [check_sequence(sequence_line, linecount)] *)
Definition check_sequence (sequence_line : string) (linecount : nat) : list msg :=
  if match_star_dollar nucleotide sequence_line then []
  else
    let e1 := if match_first py_isspace sequence_line
              then [SeqWhitespace linecount] else [] in
    let e2 := if match_first non_nucleotide sequence_line
              then [SeqNonNucleotide linecount] else [] in
    let e3 := if String.eqb sequence_line "" then [SeqNull linecount] else [] in
    let errs := e1 ++ e2 ++ e3 in
    match errs with
    | [] => [SeqUndiagnosed linecount]
    | _ => errs
    end.

(** [id_line.split('|')[0]] *)
Fixpoint before_bar (s : string) : string :=
  match s with
  | EmptyString => EmptyString
  | String c rest => if Ascii.eqb c "|"%char then EmptyString
                     else String c (before_bar rest)
  end.

(** [identifier_section[1:]] *)
Definition drop_first (s : string) : string :=
  match s with
  | EmptyString => EmptyString
  | String _ rest => rest
  end.

(** [check_identifier(id_line, remaining_ids, linecount)]:
    the index defaults to 0 when no entry matches. *)
Definition check_identifier (id_line : string) (remaining_ids : list string)
    (linecount : nat) : list msg * nat :=
  let identifier := drop_first (before_bar id_line) in
  match py_index identifier remaining_ids with
  | Some i => ([], i)
  | None => ([IdentifierNoMatch identifier linecount], 0)
  end.

(** [line_flag] takes the values '', 'id' and 'se'. *)
Inductive line_flag := FlagNone | FlagId | FlagSe.

Record fasta_state := mkState {
  fasta_errors : list msg;
  linecount : nat;
  flag : line_flag;
  remaining_ids : list string
}.

(** One iteration of [for line in fasta_file]. *)
Definition fasta_step (st : fasta_state) (line : string) : exc fasta_state :=
  let n := S (linecount st) in
  match line with
  | EmptyString => Raise IndexError                      (* line[0] *)
  | String c _ =>
    if Ascii.eqb c ">"%char then
      match flag st with
      | FlagSe | FlagNone =>
        let '(id_errs, id_index) := check_identifier line (remaining_ids st) n in
        p <- py_pop id_index (remaining_ids st) ;;
        Ok (mkState (fasta_errors st ++ id_errs) n FlagId (snd p))
      | FlagId =>
        Ok (mkState (fasta_errors st ++ [TwoConsecutiveIdLines n]) n FlagId
                    (remaining_ids st))
      end
    else
      match flag st with
      | FlagId =>
        Ok (mkState (fasta_errors st ++ check_sequence line n) n FlagSe
                    (remaining_ids st))
      | FlagSe =>
        Ok (mkState (fasta_errors st ++ [TwoConsecutiveSeqLines n]) n FlagSe
                    (remaining_ids st))
      | FlagNone => Ok (mkState (fasta_errors st) n FlagNone (remaining_ids st))
      end
  end.

Fixpoint fasta_loop (st : fasta_state) (lines : list string) : exc fasta_state :=
  match lines with
  | [] => Ok st
  | line :: rest => st' <- fasta_step st line ;; fasta_loop st' rest
  end.

(** [for identifier in remaining_ids: message = message + identifier + "\n";
    fasta_errors.append(message)]: one cumulative message per identifier. *)
Fixpoint unmatched_report (listed : list string) (ids : list string) : list msg :=
  match ids with
  | [] => []
  | i :: ids' => IdentifiersNotInFasta (listed ++ [i])
                 :: unmatched_report (listed ++ [i]) ids'
  end.

(** [validate_txmb_fasta] once the gzip file is open and yields [lines]. *)
Definition validate_txmb_fasta_lines (lines : list string)
    (table_identifiers : list string) : exc (list msg) :=
  st <- fasta_loop (mkState [] 0 FlagNone table_identifiers) lines ;;
  let errs := fasta_errors st ++ unmatched_report [] (remaining_ids st) in
  Ok (if Nat.odd (linecount st) then errs ++ [OddNumberOfLines] else errs).

(** [validate_txmb_fasta(file_name, table_identifiers)]: [None] is a file
    that [gzip.open] cannot open; the exception object itself is returned. *)
Definition validate_txmb_fasta (fasta_file : option (list string))
    (table_identifiers : list string) : exc (list msg) :=
  match fasta_file with
  | None => Ok [ExcObject FileNotFoundError]
  | Some lines => validate_txmb_fasta_lines lines table_identifiers
  end.

End Fasta.

(** ** Python string helpers used by the manifest parser *)

Fixpoint drop_ws (l : list ascii) : list ascii :=
  match l with
  | c :: l' => if py_isspace c then drop_ws l' else l
  | [] => []
  end.

Fixpoint take_non_ws (l : list ascii) : list ascii * list ascii :=
  match l with
  | c :: l' => if py_isspace c then ([], l)
               else let '(w, r) := take_non_ws l' in (c :: w, r)
  | [] => ([], [])
  end.

(** [s.rstrip()] *)
Definition py_rstrip (s : string) : string :=
  string_of_list_ascii (rev (drop_ws (rev (list_ascii_of_string s)))).

(** [s.strip()] *)
Definition py_strip (s : string) : string :=
  py_rstrip (string_of_list_ascii (drop_ws (list_ascii_of_string s))).

(** [s.split(None, 1)]: leading whitespace is skipped, the first word is
    cut at the next whitespace run, the remainder keeps its trailing
    whitespace. *)
Definition py_split_ws1 (s : string) : list string :=
  match drop_ws (list_ascii_of_string s) with
  | [] => []
  | l =>
    let '(w, r) := take_non_ws l in
    match drop_ws r with
    | [] => [string_of_list_ascii w]
    | r' => [string_of_list_ascii w; string_of_list_ascii r']
    end
  end.

(** [str(n)] for a natural number. *)
Fixpoint py_str_nat_aux (fuel n : nat) (acc : string) : string :=
  match fuel with
  | 0 => acc
  | S f =>
    let acc' := String (ascii_of_nat (48 + n mod 10)) acc in
    if Nat.ltb n 10 then acc' else py_str_nat_aux f (n / 10) acc'
  end.

Definition py_str_nat (n : nat) : string := py_str_nat_aux (S n) n "".

Definition mem (x : string) (l : list string) : bool :=
  existsb (String.eqb x) l.

(** ** validateMetadataRecord.py *)
Module Record.

Definition word_char (c : ascii) : bool :=
  let n := nat_of_ascii c in
  (Nat.leb 65 n && Nat.leb n 90) || (Nat.leb 97 n && Nat.leb n 122)
  || (Nat.leb 48 n && Nat.leb n 57) || Nat.eqb n 95.

Definition character_regex_pattern := "^[A-Za-z0-9_]+$".
Definition character_regex (s : string) : bool := match_plus_dollar word_char s.

Definition character_regex_with_space_pattern := "^[A-Za-z0-9_ ]+$".
Definition character_regex_with_space (s : string) : bool :=
  match_plus_dollar (fun c => word_char c || Ascii.eqb c " "%char) s.

Definition field_length_limit := 50.

(** [validate_file_content(metadata_record_dict, mandatory_record_content)] *)
Definition validate_file_content (metadata_record_dict : pydict)
    (mandatory_record_content : list string) : list msg :=
  flat_map (fun required_field =>
              if mem required_field (map fst metadata_record_dict) then []
              else [RequiredFieldNotFound])
           mandatory_record_content.

(** [validate_local_taxonomy] returns a bare list on the empty-value path
    and a pair [(errors, ncbi_tax)] otherwise. *)
Inductive tax_result :=
| TaxBareList (taxonomy_validation_errors : list msg)
| TaxPair (taxonomy_validation_errors : list msg) (ncbi_tax : bool).

Definition validate_local_taxonomy (local_taxonomy : string) : tax_result :=
  let field_name := "local_taxonomy" in
  if String.eqb local_taxonomy "" then
    TaxBareList [EmptyMandatoryValue field_name]
  else
    (* [str(local_taxonomy)] is [local_taxonomy] itself, non-empty here *)
    let e1 := if character_regex local_taxonomy then []
              else [RegexMismatch field_name character_regex_pattern] in
    let e2 := if Nat.leb (String.length local_taxonomy) field_length_limit
              then [] else [FieldLengthExceeded field_name] in
    TaxPair (e1 ++ e2) (mem local_taxonomy ["NCBI"; "ncbi"]).

Definition tax_version_regex_pattern := "^[A-Za-z0-9_.]+$".

Definition validate_local_taxonomy_version (local_taxonomy_version : string)
    : list msg :=
  let field_name := "local_taxonomy_version" in
  if String.eqb local_taxonomy_version "" then []
  else
    let e1 := if match_plus_dollar (fun c => word_char c || Ascii.eqb c "."%char)
                                   local_taxonomy_version then []
              else [RegexMismatch field_name tax_version_regex_pattern] in
    let e2 := if Nat.leb (String.length local_taxonomy_version) field_length_limit
              then [] else [FieldLengthExceeded field_name] in
    e1 ++ e2.

Definition validate_dataset_name (reference_dataset_name : string) : list msg :=
  let field_name := "reference_dataset_name" in
  (if character_regex reference_dataset_name then []
   else [RegexMismatch field_name character_regex_pattern]) ++
  (if Nat.leb (String.length reference_dataset_name) field_length_limit
   then [] else [FieldLengthExceeded field_name]).

(** [generate_custom_col_dict(raw_custom_columns)].  In
    [record_custom_columns[raw[key_key]] = raw[val_key]] Python evaluates
    the right-hand side first, so a missing description is reported
    before a missing header. *)
Fixpoint custom_col_loop (raw : pydict) (i fuel : nat)
    (errs : list msg) (acc : pydict) : list msg * pydict :=
  match fuel with
  | 0 => (errs, acc)
  | S f =>
    let key_key := ("CUSTOMCOLUMNHEADER" ++ py_str_nat (S i))%string in
    let val_key := (key_key ++ "DESCRIPTION")%string in
    match dict_get val_key raw, dict_get key_key raw with
    | None, _ => custom_col_loop raw (S i) f (errs ++ [ExpectedManifestLine val_key]) acc
    | Some _, None => custom_col_loop raw (S i) f (errs ++ [ExpectedManifestLine key_key]) acc
    | Some v, Some k => custom_col_loop raw (S i) f errs (dict_set k v acc)
    end
  end.

Definition generate_custom_col_dict (raw_custom_columns : pydict)
    : list msg * pydict :=
  let n := length raw_custom_columns in
  let errs := if Nat.even n then [] else [CustomColumnsUndefined] in
  custom_col_loop raw_custom_columns 0 (n / 2) errs [].

Definition validate_custom_columns (record_custom_columns : pydict) : list msg :=
  flat_map (fun '(k, v) =>
    let field_name := ("Custom Column: " ++ k)%string in
    let field_desc := ("Column Description: " ++ v)%string in
    (if character_regex_with_space k then []
     else [RegexMismatch field_name character_regex_pattern]) ++
    (if character_regex_with_space v then []
     else [RegexMismatch field_desc character_regex_with_space_pattern]) ++
    (if Nat.leb (String.length k) field_length_limit then []
     else [FieldLengthExceeded field_name]) ++
    (if Nat.leb (String.length v) field_length_limit then []
     else [FieldLengthExceeded field_desc]))
    record_custom_columns.

End Record.

(** ** validateMetadataTable.py *)
Module Table.

(** [l.pop(i)] for an index known to be in range. *)
Definition remove_at {A} (i : nat) (l : list A) : list A :=
  firstn i l ++ skipn (S i) l.

(** The caller's header list lives in a store of Python list objects;
    [validate_mandatory_headers] receives a reference to it. *)
Abbreviation heap := (gmap nat (list string)).

Fixpoint mandatory_loop (h : heap) (input_headers : nat)
    (mandatory : list string) (errs : list msg) (found_headers : list string)
    : option (heap * list msg * list string) :=
  match mandatory with
  | [] => Some (h, errs, found_headers)
  | mandatory_header :: ms =>
    match h !! input_headers with
    | None => None
    | Some l =>
      match py_index mandatory_header l with
      | Some input_index =>
        (* found_headers.append(input_headers.pop(input_index)) *)
        mandatory_loop (<[input_headers := remove_at input_index l]> h)
          input_headers ms errs (found_headers ++ [nth input_index l ""])
      | None =>
        mandatory_loop h input_headers ms
          (errs ++ [MandatoryHeaderMissing mandatory_header]) found_headers
      end
    end
  end.

(** [validate_mandatory_headers(input_headers, mandatory_headers)]: returns
    the errors, the reference bound to [input_custom_headers] and the
    store after the call. *)
Definition validate_mandatory_headers (h : heap) (input_headers : nat)
    (mandatory_headers : list string) : option (list msg * nat * heap) :=
  match mandatory_loop h input_headers mandatory_headers [] [] with
  | None => None
  | Some (h', errs, found_headers) =>
    let errs' := if bool_decide (mandatory_headers = found_headers) then errs
                 else errs ++ [MandatoryHeadersNotFound mandatory_headers] in
    (* input_custom_headers = input_headers *)
    Some (errs', input_headers, h')
  end.

Definition mandatory_headers : list string :=
  ["local_identifier"; "insdc_sequence_accession"; "insdc_sequence_range";
   "local_organism_name"; "local_lineage"; "ncbi_tax_id"].

(** [list.sort()] on strings: code-point order, which is [String.compare]
    on ASCII. *)
Fixpoint insert_sorted (x : string) (l : list string) : list string :=
  match l with
  | [] => [x]
  | y :: l' => if String.leb x y then x :: l else y :: insert_sorted x l'
  end.

Fixpoint sort (l : list string) : list string :=
  match l with
  | [] => []
  | x :: l' => insert_sorted x (sort l')
  end.

(** The [for record_index in range(len(record_headers))] loop of
    [validate_custom_columns]: a found header is popped from the table
    list, a missing one is reported. *)
Fixpoint custom_header_loop (record_headers table_custom_columns : list string)
    : list msg * list string :=
  match record_headers with
  | [] => ([], table_custom_columns)
  | header_to_check :: rest =>
    match py_index header_to_check table_custom_columns with
    | None =>
      let '(errs, leftover) := custom_header_loop rest table_custom_columns in
      (CustomHeaderNotInTable header_to_check :: errs, leftover)
    | Some table_index =>
      custom_header_loop rest (remove_at table_index table_custom_columns)
    end
  end.

(** [validate_custom_columns(table_custom_columns, record_custom_columns)];
    the sort and the pops act on the caller's list, which no caller reads
    afterwards, so only the errors are returned. *)
Definition validate_custom_columns (table_custom_columns : list string)
    (record_custom_columns : pydict) : list msg :=
  let record_headers := map fst record_custom_columns in
  match table_custom_columns, record_custom_columns with
  | [], [] => []
  | _ :: _, [] => [CustomColumnsUndeclared]
  | [], _ :: _ => [CustomColumnsUnused]
  | _, _ =>
    let rh := sort record_headers in
    let tc := sort table_custom_columns in
    (if Nat.eqb (length rh) (length tc) then [] else [CustomCountMismatch]) ++
    let '(errs, leftover) := custom_header_loop rh tc in
    errs ++ (match leftover with [] => [] | _ => [TableHeadersNotInRecord leftover] end)
  end.

Definition is_digit (c : ascii) : bool :=
  Nat.leb 48 (nat_of_ascii c) && Nat.leb (nat_of_ascii c) 57.

Fixpoint span_digits (s : string) : nat * string :=
  match s with
  | String c rest =>
    if is_digit c then let '(n, r) := span_digits rest in (S n, r) else (0, s)
  | EmptyString => (0, EmptyString)
  end.

Definition skip_char (c : ascii) (s : string) : string :=
  match s with
  | String c' rest => if Ascii.eqb c c' then rest else s
  | EmptyString => EmptyString
  end.

(** [re.match(r'^<?\d+\.\.>?\d+$', s)]; [\d] is read on ASCII digits. *)
Definition range_regex (s : string) : bool :=
  let '(n1, r1) := span_digits (skip_char "<"%char s) in
  Nat.ltb 0 n1 &&
  match r1 with
  | String d1 (String d2 r2) =>
    Ascii.eqb d1 "."%char && Ascii.eqb d2 "."%char &&
    let '(n2, r3) := span_digits (skip_char ">"%char r2) in
    Nat.ltb 0 n2 && py_dollar r3
  | _ => false
  end.

(** [validate_insdc_sequence_range(insdc_sequence_range, accession_present)]
    on a string cell; the [TypeError] branch only concerns non-string cells. *)
Definition validate_insdc_sequence_range (insdc_sequence_range : string)
    (accession_present : bool) : list msg :=
  if String.eqb insdc_sequence_range "" then []
  else
    (if accession_present then []
     else [RangeWithoutAccession insdc_sequence_range]) ++
    (if range_regex insdc_sequence_range then []
     else [InvalidRange insdc_sequence_range]).

(** A table cell as pandas reads it with [keep_default_na=False]: a
    string, or an integer in a numeric column. *)
Inductive cell :=
| CellStr (s : string)
| CellInt (z : Z).

(** Messages of the per-row checks of the metadata table. *)
Inductive row_msg :=
| InvalidAccession (accession : string)
| NoOrganismName
| InvalidOrganismName (name : string)
| NcbiTaxIdNotExpected (tax_id : cell)
| NcbiTaxIdMismatch (tax_id : cell) (name : string).

Fixpoint span_while (p : ascii -> bool) (s : string) : nat * string :=
  match s with
  | String c rest =>
    if p c then let '(n, r) := span_while p rest in (S n, r) else (0, s)
  | EmptyString => (0, EmptyString)
  end.

Definition is_upper (c : ascii) : bool :=
  Nat.leb 65 (nat_of_ascii c) && Nat.leb (nat_of_ascii c) 90.

Definition is_alpha (c : ascii) : bool :=
  is_upper c || (Nat.leb 97 (nat_of_ascii c) && Nat.leb (nat_of_ascii c) 122).

(** [re.match(r'^[A-Z]{1,6}[0-9]{5,8}(\.[0-9])?$', s)]: letters and digits
    are disjoint classes, so each bounded repeat must take its whole run. *)
Definition insdc_acc_regex (s : string) : bool :=
  let '(n1, r1) := span_while is_upper s in
  Nat.leb 1 n1 && Nat.leb n1 6 &&
  let '(n2, r2) := span_digits r1 in
  Nat.leb 5 n2 && Nat.leb n2 8 &&
  (py_dollar r2 ||
   match r2 with
   | String d (String c r3) => Ascii.eqb d "."%char && is_digit c && py_dollar r3
   | _ => false
   end).

(** [validate_insdc_sequence_accession(insdc_sequence_accession)] on a
    string cell: returns the errors and [accession_present]. *)
Definition validate_insdc_sequence_accession (insdc_sequence_accession : string)
    : list row_msg * bool :=
  if String.eqb insdc_sequence_accession "" then ([], false)
  else
    ((if insdc_acc_regex insdc_sequence_accession then []
      else [InvalidAccession insdc_sequence_accession]), true).

(** [re.match(r'^[A-Za-z]+\s.+$', s)]: [.] is any character but a
    newline. *)
Definition organism_name_regex (s : string) : bool :=
  let '(n1, r1) := span_while is_alpha s in
  Nat.leb 1 n1 &&
  match r1 with
  | String c r2 =>
    py_isspace c &&
    let '(n2, r3) := span_while (fun c => negb (Ascii.eqb c nl)) r2 in
    Nat.leb 1 n2 && py_dollar r3
  | EmptyString => false
  end.

Section Organism.

(** Lines 276-295 of [validate_local_organism_name] query the ENA taxonomy
    web service ([requests.get], [response.json()], [int(tax_id)]); their
    outcome for a name is this parameter. *)
Variable ncbi_name_lookup : string -> exc (list row_msg * list Z).

(** [validate_local_organism_name(local_organism_name, ncbi_tax)] *)
Definition validate_local_organism_name (local_organism_name : string)
    (ncbi_tax : bool) : exc (list row_msg * list Z) :=
  if String.eqb local_organism_name "" then Ok ([NoOrganismName], [])
  else if ncbi_tax then ncbi_name_lookup local_organism_name
  else
    Ok ((if organism_name_regex local_organism_name then []
         else [InvalidOrganismName local_organism_name]), []).

End Organism.

(** Python truthiness of a cell. *)
Definition cell_truthy (c : cell) : bool :=
  match c with
  | CellStr s => negb (String.eqb s "")
  | CellInt z => negb (Z.eqb z 0)
  end.

(** [input_ncbi_tax_id in expected_ncbi_tax_ids], a list of ints: a string
    is never equal to an int. *)
Definition cell_in_ints (c : cell) (l : list Z) : bool :=
  match c with
  | CellInt z => existsb (Z.eqb z) l
  | CellStr _ => false
  end.

(** [validate_ncbi_tax_id(input_ncbi_tax_id, expected_ncbi_tax_ids, ncbi_tax,
    local_organism_name)] *)
Definition validate_ncbi_tax_id (input_ncbi_tax_id : cell)
    (expected_ncbi_tax_ids : list Z) (ncbi_tax : bool)
    (local_organism_name : string) : list row_msg :=
  if negb ncbi_tax then
    if cell_truthy input_ncbi_tax_id
    then [Table.NcbiTaxIdNotExpected input_ncbi_tax_id] else []
  else if cell_in_ints input_ncbi_tax_id expected_ncbi_tax_ids then []
  else [NcbiTaxIdMismatch input_ncbi_tax_id local_organism_name].

End Table.

(** ** validateTXMB.py *)
Module TXMB.

Definition mandatory_record_content : list string :=
  ["LOCALTAXONOMY"; "REFERENCEDATASETNAME"; "FASTA"; "TABLE"].
Definition optional_record_content : list string := ["LOCALTAXONOMYVERSION"].

(** Outcome of the [for line in record_content] loop: either an early
    [return] with the error list, or the two dicts it filled. *)
Inductive record_loop_outcome :=
| EarlyReturn (metadata_record_errors : list msg) (metadata_record : pydict)
| LoopDone (metadata_record raw_custom_columns : pydict).

Fixpoint record_loop (record_content : list string)
    (metadata_record raw_custom_columns : pydict) : exc record_loop_outcome :=
  match record_content with
  | [] => Ok (LoopDone metadata_record raw_custom_columns)
  | line0 :: rest =>
    let line := py_rstrip line0 in
    match py_split_ws1 line with
    | [key; value] =>
      if mem key mandatory_record_content then
        record_loop rest (dict_set key value metadata_record) raw_custom_columns
      else if mem key optional_record_content then
        record_loop rest (dict_set key value metadata_record) raw_custom_columns
      else
        record_loop rest metadata_record (dict_set key value raw_custom_columns)
    | [] => Raise IndexError                        (* line_content[0] *)
    | key :: _ =>
      if mem key mandatory_record_content then
        Ok (EarlyReturn [RecordLineUnprocessable line] metadata_record)
      else record_loop rest metadata_record raw_custom_columns
    end
  end.

(** [validate_metadata_record(metadata_record_filename)] over a file
    system [fs] mapping a file name to the lines [readlines()] returns.
    The result is [(errors, metadata_record, record_custom_columns,
    ncbi_tax)]. *)
Definition validate_metadata_record (fs : string -> option (list string))
    (metadata_record_filename : string)
    : exc (list msg * pydict * pydict * bool) :=
  match fs metadata_record_filename with
  | None => Ok ([RecordNotFound metadata_record_filename], [], [], false)
  | Some record_content =>
    outcome <- record_loop record_content [] [] ;;
    match outcome with
    | EarlyReturn errs md => Ok (errs, md, [], false)
    | LoopDone metadata_record raw_custom_columns =>
      let e1 := Record.validate_file_content metadata_record
                                             mandatory_record_content in
      name <- dict_subscript "REFERENCEDATASETNAME" metadata_record ;;
      let e2 := Record.validate_dataset_name name in
      tax <- dict_subscript "LOCALTAXONOMY" metadata_record ;;
      match Record.validate_local_taxonomy tax with
      | Record.TaxBareList _ => Raise IndexError    (* tax_validation[1] *)
      | Record.TaxPair e3 ncbi_tax =>
        let e4 := match dict_get "LOCALTAXONOMYVERSION" metadata_record with
                  | Some v => Record.validate_local_taxonomy_version v
                  | None => []
                  end in
        match raw_custom_columns with
        | [] => Ok (e1 ++ e2 ++ e3 ++ e4, metadata_record, [], ncbi_tax)
        | _ :: _ =>
          let '(e5, record_custom_columns) :=
            Record.generate_custom_col_dict raw_custom_columns in
          let e6 := Record.validate_custom_columns record_custom_columns in
          Ok (e1 ++ e2 ++ e3 ++ e4 ++ e5 ++ e6, metadata_record,
              record_custom_columns, ncbi_tax)
        end
      end
    end
  end.

(** Observable actions of [validate_txmb]: each stage reads its own file;
    [report_errors] writes the report. *)
Inductive event :=
| RecordStage (manifest_filename : string)
| TableStage (table_filename : string)
| FastaStage (fasta_filename : string)
| Report (report_filename : string) (error_messages : list msg).

(** A writer of events with Python exceptions. *)
Definition M (A : Type) := list event -> exc A * list event.

Definition retM {A} (a : A) : M A := fun tr => (Ok a, tr).
Definition bindM {A B} (m : M A) (k : A -> M B) : M B :=
  fun tr => match m tr with
            | (Ok a, tr') => k a tr'
            | (Raise e, tr') => (Raise e, tr')
            end.
Definition liftE {A} (m : exc A) : M A := fun tr => (m, tr).
Definition emit (ev : event) : M unit := fun tr => (Ok tt, tr ++ [ev]).

Notation "'let*' x ':=' m 'in' k" := (bindM m (fun x => k))
  (at level 200, x name, m at level 100, k at level 200).

Definition is_exc_object (m : msg) : bool :=
  match m with ExcObject _ => true | _ => false end.

(** [report_errors(report_filename, error_messages)]: ['ERROR: ' + error]
    raises [TypeError] on an exception object. *)
Definition report_errors (report_filename : string) (error_messages : list msg)
    : M bool :=
  let* _ := emit (Report report_filename error_messages) in
  if existsb is_exc_object error_messages then liftE (Raise TypeError)
  else retM true.

(** The return value: a message string, or [False] on success. *)
Inductive txmb_result :=
| SubmissionInvalid (message : string)
| SubmissionValid.

Section Orchestrator.

Variable validate_metadata_record :
  string -> exc (list msg * pydict * pydict * bool).
Variable validate_metadata_table :
  string -> pydict -> bool -> exc (list msg * list string).
Variable validate_fasta : string -> list string -> exc (list msg).

Definition validate_txmb (manifest_filename : string) : M txmb_result :=
  let* _ := emit (RecordStage manifest_filename) in
  let* r := liftE (validate_metadata_record manifest_filename) in
  let '(metadata_record_errors, metadata_record, record_custom_columns,
        ncbi_tax) := r in
  let report_filename :=
    match dict_get "REFERENCEDATASETNAME" metadata_record with
    | Some name => (name ++ ".report")%string
    | None => "unamed_record.report"
    end in
  match metadata_record_errors with
  | _ :: _ =>
    let* _ := report_errors report_filename metadata_record_errors in
    retM (SubmissionInvalid
            ("Could not validate metadata record, please view error " ++
             "messages in " ++ report_filename)%string)
  | [] =>
    let* table_filename := liftE (dict_subscript "TABLE" metadata_record) in
    let* _ := emit (TableStage table_filename) in
    let* t := liftE (validate_metadata_table table_filename
                       record_custom_columns ncbi_tax) in
    let '(metadata_table_errors, local_identifiers) := t in
    match metadata_table_errors with
    | _ :: _ =>
      let* _ := report_errors report_filename metadata_table_errors in
      retM (SubmissionInvalid
              ("Could not validate " ++ table_filename ++ ", please view " ++
               "error messages in " ++ report_filename)%string)
    | [] =>
      let* fasta_filename := liftE (dict_subscript "FASTA" metadata_record) in
      let* _ := emit (FastaStage fasta_filename) in
      let* fasta_errors := liftE (validate_fasta fasta_filename
                                                 local_identifiers) in
      match fasta_errors with
      | _ :: _ =>
        let* _ := report_errors report_filename fasta_errors in
        retM (SubmissionInvalid
                ("Could not validate " ++ fasta_filename ++ ", please view" ++
                 "error messages in " ++ report_filename)%string)
      | [] => retM SubmissionValid
      end
    end
  end.

End Orchestrator.

End TXMB.

(** ** Reading of the spec used to compare with [validate_local_taxonomy] *)

Definition py_upper_char (c : ascii) : ascii :=
  let n := nat_of_ascii c in
  if Nat.leb 97 n && Nat.leb n 122 then ascii_of_nat (n - 32) else c.

Definition py_upper (s : string) : string :=
  string_of_list_ascii (map py_upper_char (list_ascii_of_string s)).

(** The spec's flag: the trimmed value case-insensitively equals "NCBI". *)
Definition spec_is_ncbi_taxonomy (local_taxonomy : string) : bool :=
  String.eqb (py_upper (py_strip local_taxonomy)) "NCBI".

(** ** Concrete inputs *)

Definition line_of (s : string) : string := (s ++ String nl EmptyString)%string.

(** A manifest that has no REFERENCEDATASETNAME line. *)
Definition fs_no_dataset_name (f : string) : option (list string) :=
  if String.eqb f "manifest.txt" then
    Some [line_of "LOCALTAXONOMY NCBI"; line_of "FASTA seqs.fasta.gz";
          line_of "TABLE meta.tsv.gz"]
  else None.

(** Removal of the first occurrence of a string, and of one occurrence of
    each string of a list in turn. *)
Fixpoint remove_first (x : string) (l : list string) : list string :=
  match l with
  | [] => []
  | y :: l' => if String.eqb x y then l' else y :: remove_first x l'
  end.

Definition remove_each (xs l : list string) : list string :=
  fold_left (fun acc x => remove_first x acc) xs l.

(** A FASTA record as two lines of the file, an identifier line and a
    sequence line; the identifier the validator reads off it; the lines of
    a list of records; and a well-formed record: its identifier line starts
    with ['>'], its sequence line is not empty and the nucleotide pattern
    accepts it. *)
Definition record_identifier (r : string * string) : string :=
  Fasta.drop_first (Fasta.before_bar (fst r)).

Definition record_lines (recs : list (string * string)) : list string :=
  flat_map (fun r => [fst r; snd r]) recs.

Definition wellformed_record (r : string * string) : Prop :=
  (exists rest, fst r = String ">"%char rest) /\ snd r <> "" /\
  match_star_dollar Fasta.nucleotide (snd r) = true.

(** The messages [fasta_step] can add, as opposed to the end-of-file
    report. *)
Definition is_loop_msg (m : msg) : bool :=
  match m with
  | IdentifiersNotInFasta _ | OddNumberOfLines => false
  | _ => true
  end.

(** ** Lemmas about the model *)

Lemma nucleotide_not_space_not_non_nucleotide (c : ascii) :
  Fasta.nucleotide c = true ->
  py_isspace c = false /\ Fasta.non_nucleotide c = false.
Proof.
  intros H.
  destruct c as [b0 b1 b2 b3 b4 b5 b6 b7].
  destruct b0, b1, b2, b3, b4, b5, b6, b7;
    vm_compute in H |- *; first [discriminate | split; reflexivity].
Qed.

(** An identifier line right after an identifier line only appends the
    "two consecutive ID lines" error for its own line number. *)
Lemma fasta_step_id_after_id (st : Fasta.fasta_state) (rest : string) :
  Fasta.flag st = Fasta.FlagId ->
  Fasta.fasta_step st (String ">"%char rest) =
  Ok (Fasta.mkState (Fasta.fasta_errors st ++
                     [TwoConsecutiveIdLines (S (Fasta.linecount st))])
                    (S (Fasta.linecount st)) Fasta.FlagId
                    (Fasta.remaining_ids st)).
Proof.
  intros Hf. unfold Fasta.fasta_step. simpl. rewrite Hf. reflexivity.
Qed.

(** ** Claims *)

(** C1 (code_bug). An identifier line whose identifier matches no ledger
    entry still pops index 0 of the ledger: with ledger ["A"] and the
    FASTA lines ">B|x" / "ACGT", the only error is the mismatch of "B";
    "A" is removed without being matched and is not reported as missing. *)
Theorem fasta_mismatch_pops_first_entry :
  Fasta.validate_txmb_fasta_lines [line_of ">B|x"; line_of "ACGT"] ["A"] =
  Ok [IdentifierNoMatch "B" 1].
Proof. vm_compute. reflexivity. Qed.

(** C2 (code_bug). [check_sequence] returns no error at all for the empty
    line, nor for a line holding only a newline: the nucleotide pattern
    [^[...]*$] accepts both, so the null-sequence branch is never reached. *)
Theorem check_sequence_empty_no_error (n : nat) :
  Fasta.check_sequence "" n = [] /\
  Fasta.check_sequence (String nl EmptyString) n = [].
Proof. split; reflexivity. Qed.

(** C3 (counterexample). "Ncbi" is "NCBI" up to case, yet
    [validate_local_taxonomy] reports no NCBI taxonomy for it. *)
Lemma local_taxonomy_case_counterexample :
  spec_is_ncbi_taxonomy "Ncbi" = true /\
  Record.validate_local_taxonomy "Ncbi" = Record.TaxPair [] false.
Proof. split; vm_compute; reflexivity. Qed.

(** C3 (amended). For every non-empty value, [validate_local_taxonomy]
    returns a pair whose flag is computed from the value alone, whatever
    the errors: it is true exactly when the value is "NCBI" or "ncbi". *)
Theorem local_taxonomy_flag (local_taxonomy : string) :
  local_taxonomy <> "" ->
  exists errs,
    Record.validate_local_taxonomy local_taxonomy =
    Record.TaxPair errs (String.eqb local_taxonomy "NCBI" ||
                         String.eqb local_taxonomy "ncbi").
Proof.
  intros Hne. unfold Record.validate_local_taxonomy, mem.
  destruct (String.eqb_spec local_taxonomy "") as [Heq | _];
    [contradiction | ].
  simpl. rewrite orb_false_r. eexists. reflexivity.
Qed.

Lemma local_taxonomy_flag_witness :
  "NCBI" <> "" /\
  exists errs, Record.validate_local_taxonomy "NCBI" = Record.TaxPair errs true.
Proof.
  split; [discriminate | ].
  apply (local_taxonomy_flag "NCBI"). discriminate.
Defined.

(** C5 (code_bug). With a manifest lacking the REFERENCEDATASETNAME line,
    [validate_metadata_record] raises [KeyError] on
    [metadata_record['REFERENCEDATASETNAME']] after
    [validate_file_content] has collected the missing-field error; the
    exception escapes [validate_txmb], whatever the table and FASTA stages
    are, and no report is written. *)
Theorem missing_dataset_name_raises
    (validate_metadata_table : string -> pydict -> bool -> exc (list msg * list string))
    (validate_fasta : string -> list string -> exc (list msg)) :
  TXMB.validate_metadata_record fs_no_dataset_name "manifest.txt" = Raise KeyError /\
  TXMB.validate_txmb (TXMB.validate_metadata_record fs_no_dataset_name)
    validate_metadata_table validate_fasta "manifest.txt" [] =
  (Raise KeyError, [TXMB.RecordStage "manifest.txt"]).
Proof. split; vm_compute; reflexivity. Qed.

(** C6 (code_bug). Sequence lines before the first identifier line leave
    the flag at '' and are skipped silently: two consecutive sequence lines
    at the start of the file raise no consecutive-sequence error, and this
    four-line file validates with no error at all. *)
Theorem leading_sequence_lines_unreported :
  Fasta.validate_txmb_fasta_lines
    [line_of "ACGT"; line_of "ACGT"; line_of ">A|x"; line_of "ACGT"] ["A"] =
  Ok [].
Proof. vm_compute. reflexivity. Qed.

(** C8. An empty range gives no error; a non-empty range without an
    accession gives the range-without-accession error followed by the
    usual format check, so "10..20" gives only that error and an
    ill-formed range gives both. *)
Theorem range_without_accession_in_addition (insdc_sequence_range : string)
    (accession_present : bool) :
  (insdc_sequence_range = "" ->
   Table.validate_insdc_sequence_range insdc_sequence_range accession_present = []) /\
  (insdc_sequence_range <> "" -> accession_present = false ->
   Table.validate_insdc_sequence_range insdc_sequence_range accession_present =
   RangeWithoutAccession insdc_sequence_range ::
   (if Table.range_regex insdc_sequence_range then []
    else [InvalidRange insdc_sequence_range])) /\
  (insdc_sequence_range <> "" -> accession_present = false ->
   Table.range_regex insdc_sequence_range = false ->
   Table.validate_insdc_sequence_range insdc_sequence_range accession_present =
   [RangeWithoutAccession insdc_sequence_range; InvalidRange insdc_sequence_range]) /\
  Table.validate_insdc_sequence_range "10..20" false =
  [RangeWithoutAccession "10..20"].
Proof.
  unfold Table.validate_insdc_sequence_range.
  split; [| split; [| split]].
  - intros ->. reflexivity.
  - intros Hne ->. destruct (String.eqb_spec insdc_sequence_range "");
      [contradiction | reflexivity].
  - intros Hne -> Hr. destruct (String.eqb_spec insdc_sequence_range "");
      [contradiction | ]. rewrite Hr. reflexivity.
  - reflexivity.
Qed.

Lemma range_without_accession_in_addition_witness :
  Table.validate_insdc_sequence_range "10.20" false =
  [RangeWithoutAccession "10.20"; InvalidRange "10.20"].
Proof.
  apply (range_without_accession_in_addition "10.20" false);
    [discriminate | reflexivity | reflexivity].
Defined.

(** C10. The whitespace and non-nucleotide tests only look at the first
    character: a line starting with a nucleotide letter that fails the
    nucleotide pattern gets exactly the could-not-be-diagnosed error. *)
Theorem check_sequence_anchored_undiagnosed (c : ascii) (rest : string)
    (linecount : nat) :
  Fasta.nucleotide c = true ->
  match_star_dollar Fasta.nucleotide (String c rest) = false ->
  Fasta.check_sequence (String c rest) linecount = [SeqUndiagnosed linecount].
Proof.
  intros Hc Hm.
  destruct (nucleotide_not_space_not_non_nucleotide c Hc) as [Hs Hn].
  unfold Fasta.check_sequence. rewrite Hm. simpl. rewrite Hs, Hn.
  reflexivity.
Qed.

Lemma check_sequence_anchored_undiagnosed_witness :
  Fasta.check_sequence "actg actg" 2 = [SeqUndiagnosed 2].
Proof.
  apply (check_sequence_anchored_undiagnosed "a"%char "ctg actg" 2);
    vm_compute; reflexivity.
Defined.

Section Gating.

Variable validate_metadata_record :
  string -> exc (list msg * pydict * pydict * bool).
Variable validate_metadata_table :
  string -> pydict -> bool -> exc (list msg * list string).
Variable validate_fasta : string -> list string -> exc (list msg).

Local Abbreviation run mf :=
  (TXMB.validate_txmb validate_metadata_record validate_metadata_table
                      validate_fasta mf []).

Lemma report_errors_trace (rf : string) (errs : list msg) (tr : list TXMB.event) :
  snd (TXMB.report_errors rf errs tr) = tr ++ [TXMB.Report rf errs].
Proof.
  unfold TXMB.report_errors, TXMB.bindM, TXMB.emit.
  destruct (existsb TXMB.is_exc_object errs); reflexivity.
Qed.

Lemma bind_report_trace {A} (rf : string) (errs : list msg)
    (k : bool -> TXMB.M A) (tr : list TXMB.event) :
  (forall b tr', snd (k b tr') = tr') ->
  snd (TXMB.bindM (TXMB.report_errors rf errs) k tr) =
  tr ++ [TXMB.Report rf errs].
Proof.
  intros Hk.
  unfold TXMB.report_errors, TXMB.bindM, TXMB.emit, TXMB.retM, TXMB.liftE.
  destruct (existsb TXMB.is_exc_object errs); [reflexivity | apply Hk].
Qed.

(** C4. [validate_txmb] succeeds exactly when the three stages all return
    no error; a failing manifest stage is followed by its report only (no
    table or FASTA stage); a failing table stage by its report only (no
    FASTA stage); and each report carries exactly the errors of the stage
    that failed.  (When those errors hold an exception object, as the FASTA
    stage returns for a missing file, [report_errors] is still called with
    them and then raises [TypeError].) *)
Theorem validate_txmb_stage_gating (mf : string) :
  (fst (run mf) = Ok TXMB.SubmissionValid <->
   exists md cc nt tf ids ff,
     validate_metadata_record mf = Ok ([], md, cc, nt) /\
     dict_get "TABLE" md = Some tf /\
     validate_metadata_table tf cc nt = Ok ([], ids) /\
     dict_get "FASTA" md = Some ff /\
     validate_fasta ff ids = Ok []) /\
  (forall errs md cc nt,
     validate_metadata_record mf = Ok (errs, md, cc, nt) -> errs <> [] ->
     exists rf, snd (run mf) = [TXMB.RecordStage mf; TXMB.Report rf errs]) /\
  (forall md cc nt tf errs ids,
     validate_metadata_record mf = Ok ([], md, cc, nt) ->
     dict_get "TABLE" md = Some tf ->
     validate_metadata_table tf cc nt = Ok (errs, ids) -> errs <> [] ->
     exists rf, snd (run mf) =
       [TXMB.RecordStage mf; TXMB.TableStage tf; TXMB.Report rf errs]) /\
  (forall md cc nt tf ids ff errs,
     validate_metadata_record mf = Ok ([], md, cc, nt) ->
     dict_get "TABLE" md = Some tf ->
     validate_metadata_table tf cc nt = Ok ([], ids) ->
     dict_get "FASTA" md = Some ff ->
     validate_fasta ff ids = Ok errs -> errs <> [] ->
     exists rf, snd (run mf) =
       [TXMB.RecordStage mf; TXMB.TableStage tf; TXMB.FastaStage ff;
        TXMB.Report rf errs]).
Proof.
  unfold TXMB.validate_txmb.
  split; [split | split; [| split]].
  - unfold TXMB.bindM at 1, TXMB.emit at 1. cbn beta iota.
    unfold TXMB.bindM at 1, TXMB.liftE at 1.
    destruct (validate_metadata_record mf) as [[[[errs md] cc] nt] | e] eqn:E1;
      [ | discriminate].
    destruct errs as [| e es].
    2:{ unfold TXMB.bindM, TXMB.report_errors, TXMB.emit, TXMB.liftE, TXMB.retM.
        destruct (existsb TXMB.is_exc_object (e :: es)); discriminate. }
    unfold TXMB.bindM at 1, TXMB.liftE at 1, dict_subscript at 1.
    destruct (dict_get "TABLE" md) as [tf |] eqn:E2; [ | discriminate].
    unfold TXMB.bindM at 1, TXMB.emit at 1. cbn beta iota.
    unfold TXMB.bindM at 1, TXMB.liftE at 1.
    destruct (validate_metadata_table tf cc nt) as [[terrs ids] | e] eqn:E3;
      [ | discriminate].
    destruct terrs as [| e es].
    2:{ unfold TXMB.bindM, TXMB.report_errors, TXMB.emit, TXMB.liftE, TXMB.retM.
        destruct (existsb TXMB.is_exc_object (e :: es)); discriminate. }
    unfold TXMB.bindM at 1, TXMB.liftE at 1, dict_subscript at 1.
    destruct (dict_get "FASTA" md) as [ff |] eqn:E4; [ | discriminate].
    unfold TXMB.bindM at 1, TXMB.emit at 1. cbn beta iota.
    unfold TXMB.bindM at 1, TXMB.liftE at 1.
    destruct (validate_fasta ff ids) as [ferrs | e] eqn:E5; [ | discriminate].
    destruct ferrs as [| e es].
    2:{ unfold TXMB.bindM, TXMB.report_errors, TXMB.emit, TXMB.liftE, TXMB.retM.
        destruct (existsb TXMB.is_exc_object (e :: es)); discriminate. }
    intros _. exists md, cc, nt, tf, ids, ff. auto.
  - intros (md & cc & nt & tf & ids & ff & E1 & E2 & E3 & E4 & E5).
    unfold TXMB.bindM, TXMB.emit, TXMB.liftE, dict_subscript.
    rewrite E1. simpl. rewrite E2, E3, E4, E5. reflexivity.
  - intros errs md cc nt E1 Hne.
    unfold TXMB.bindM at 1 2, TXMB.emit at 1, TXMB.liftE at 1. rewrite E1.
    destruct errs as [| e es]; [contradiction | ].
    eexists. etransitivity;
        [apply bind_report_trace; reflexivity | reflexivity].
  - intros md cc nt tf errs ids E1 E2 E3 Hne.
      unfold TXMB.bindM at 1 2 3 4 5, TXMB.emit at 1 2,
        TXMB.liftE at 1 2 3, dict_subscript at 1.
      rewrite E1. cbn beta iota. rewrite E2, E3.
      destruct errs as [| e es]; [contradiction | ].
      eexists. etransitivity;
        [apply bind_report_trace; reflexivity | reflexivity].
  - intros md cc nt tf ids ff errs E1 E2 E3 E4 E5 Hne.
      unfold TXMB.bindM at 1 2 3 4 5 6 7 8, TXMB.emit at 1 2 3,
        TXMB.liftE at 1 2 3 4 5, dict_subscript at 1 2.
      rewrite E1. cbn beta iota. rewrite E2, E3. cbn beta iota.
      rewrite E4, E5.
      destruct errs as [| e es]; [contradiction | ].
      eexists. etransitivity;
        [apply bind_report_trace; reflexivity | reflexivity].
Qed.

End Gating.

Lemma validate_txmb_stage_gating_witness :
  exists rf,
    snd (TXMB.validate_txmb
           (fun _ => Ok ([RecordNotFound "m.txt"], [], [], false))
           (fun _ _ _ => Ok ([], [])) (fun _ _ => Ok []) "m.txt" []) =
    [TXMB.RecordStage "m.txt"; TXMB.Report rf [RecordNotFound "m.txt"]].
Proof.
  destruct (validate_txmb_stage_gating
              (fun _ => Ok ([RecordNotFound "m.txt"], [], [], false))
              (fun _ _ _ => Ok ([], [])) (fun _ _ => Ok []) "m.txt")
    as (_ & H2 & _).
  apply (H2 [RecordNotFound "m.txt"] [] [] false); [reflexivity | discriminate].
Defined.

(** ** List lemmas for the header checks *)

Lemma mem_In (x : string) (l : list string) : mem x l = true <-> In x l.
Proof.
  unfold mem. rewrite existsb_exists. split.
  - intros (y & Hy & E). apply String.eqb_eq in E. subst. exact Hy.
  - intros H. exists x. split; [exact H | apply String.eqb_refl].
Qed.

Lemma py_index_remove_at (x : string) (l : list string) (i : nat) :
  py_index x l = Some i -> Table.remove_at i l = remove_first x l.
Proof.
  revert i. induction l as [| y l IH]; intros i H; simpl in H; [discriminate |].
  simpl. destruct (String.eqb x y).
  - injection H as <-. reflexivity.
  - destruct (py_index x l) as [j |]; simpl in H; [| discriminate].
    injection H as <-. unfold Table.remove_at in *. simpl.
    f_equal. apply IH. reflexivity.
Qed.

Lemma py_index_None (x : string) (l : list string) :
  py_index x l = None -> ~ In x l.
Proof.
  induction l as [| y l IH]; simpl; [auto |].
  destruct (String.eqb_spec x y) as [-> | Hne]; [discriminate |].
  destruct (py_index x l); simpl; [discriminate |].
  intros _ [-> | Hin]; [apply Hne; reflexivity | exact (IH eq_refl Hin)].
Qed.

Lemma py_index_Some_In (x : string) (l : list string) (i : nat) :
  py_index x l = Some i -> In x l.
Proof.
  revert i. induction l as [| y l IH]; intros i; simpl; [discriminate |].
  destruct (String.eqb_spec x y) as [-> | _]; [left; reflexivity |].
  destruct (py_index x l) eqn:E; simpl; [| discriminate].
  intros _. right. exact (IH _ eq_refl).
Qed.

Lemma remove_first_not_In (x : string) (l : list string) :
  ~ In x l -> remove_first x l = l.
Proof.
  induction l as [| y l IH]; simpl; [reflexivity |]. intros H.
  destruct (String.eqb_spec x y) as [-> | _]; [exfalso; auto |].
  f_equal. auto.
Qed.

Lemma In_remove_first_neq (x y : string) (l : list string) :
  y <> x -> In y (remove_first x l) <-> In y l.
Proof.
  intros Hne. induction l as [| z l IH]; simpl; [tauto |].
  destruct (String.eqb_spec x z) as [-> | _]; simpl.
  - split; [auto | intros [-> | H]; [contradiction | exact H]].
  - rewrite IH. tauto.
Qed.

Lemma In_remove_first_NoDup (x y : string) (l : list string) :
  List.NoDup l -> In y (remove_first x l) <-> In y l /\ y <> x.
Proof.
  intros Hnd. induction Hnd as [| z l Hz Hnd IH]; simpl; [tauto |].
  destruct (String.eqb_spec x z) as [-> | Hxz]; simpl.
  - split.
    + intros H. split; [right; exact H | intros ->; contradiction].
    + intros [[-> | H] Hne]; [congruence | exact H].
  - rewrite IH. split.
    + intros [-> | [H Hne]]; [split; [left; reflexivity | auto] | auto].
    + intros [[-> | H] Hne]; [left; reflexivity | right; auto].
Qed.

Lemma remove_first_NoDup (x : string) (l : list string) :
  List.NoDup l -> List.NoDup (remove_first x l).
Proof.
  intros Hnd. induction Hnd as [| z l Hz Hnd IH]; simpl; [constructor |].
  destruct (String.eqb x z); [exact Hnd |].
  constructor; [| exact IH].
  intros H. apply Hz. destruct (String.string_dec z x) as [-> | Hne].
  - apply In_remove_first_NoDup in H; [tauto | exact Hnd].
  - exact (proj1 (In_remove_first_neq x z l Hne) H).
Qed.

Lemma count_occ_remove_first (x y : string) (l : list string) :
  count_occ String.string_dec (remove_first x l) y =
  count_occ String.string_dec l y - (if String.string_dec y x then 1 else 0).
Proof.
  induction l as [| z l IH]; simpl.
  - destruct (String.string_dec y x); reflexivity.
  - destruct (String.eqb_spec x z) as [Hxz | Hxz].
    + subst z.
      destruct (String.string_dec x y) as [Hxy | Hxy];
        destruct (String.string_dec y x) as [Hyx | Hyx]; try congruence; lia.
    + simpl. rewrite IH.
      destruct (String.string_dec z y) as [Hzy | Hzy];
        destruct (String.string_dec y x) as [Hyx | Hyx]; try congruence.
      lia.
Qed.

Lemma mem_remove_first_neq (x y : string) (l : list string) :
  y <> x -> mem y (remove_first x l) = mem y l.
Proof.
  intros Hne. apply Bool.eq_iff_eq_true.
  rewrite !mem_In. apply In_remove_first_neq. exact Hne.
Qed.

Lemma mem_perm (x : string) (l l' : list string) :
  Permutation l l' -> mem x l = mem x l'.
Proof.
  intros Hp. apply Bool.eq_iff_eq_true. rewrite !mem_In.
  split; apply Permutation_in; [exact Hp | symmetry; exact Hp].
Qed.

Lemma In_remove_each_NoDup (ms l : list string) (x : string) :
  List.NoDup l -> In x (remove_each ms l) <-> In x l /\ ~ In x ms.
Proof.
  unfold remove_each. revert l.
  induction ms as [| m ms IH]; intros l Hnd; simpl; [tauto |].
  rewrite IH by (apply remove_first_NoDup; exact Hnd).
  rewrite In_remove_first_NoDup by exact Hnd.
  split.
  - intros [[Hin Hne] Hnin]. split; [exact Hin |].
    intros [-> | H]; [apply Hne; reflexivity | exact (Hnin H)].
  - intros [Hin Hn]. split; [split; [exact Hin |] |].
    + intros ->. apply Hn. left. reflexivity.
    + intros H. apply Hn. right. exact H.
Qed.

Lemma mandatory_loop_heap (h : gmap nat (list string)) (p : nat)
    (l ms : list string) (errs : list msg) (found : list string) :
  h !! p = Some l ->
  exists errs' found',
    Table.mandatory_loop h p ms errs found =
    Some (<[p := remove_each ms l]> h, errs', found').
Proof.
  unfold remove_each. revert h l errs found.
  induction ms as [| m ms IH]; intros h l errs found Hl; simpl.
  - exists errs, found. rewrite insert_id by exact Hl. reflexivity.
  - rewrite Hl. destruct (py_index m l) as [i |] eqn:E.
    + destruct (IH (<[p := Table.remove_at i l]> h) (Table.remove_at i l)
                   errs (found ++ [nth i l ""])) as (e' & f' & H).
      { apply lookup_insert_eq. }
      rewrite H, insert_insert_eq, (py_index_remove_at m l i E).
      exists e', f'. reflexivity.
    + destruct (IH h l (errs ++ [MandatoryHeaderMissing m]) found Hl)
        as (e' & f' & H).
      rewrite H, (remove_first_not_In m l (py_index_None m l E)).
      exists e', f'. reflexivity.
Qed.

Lemma insert_sorted_perm (x : string) (l : list string) :
  Permutation (Table.insert_sorted x l) (x :: l).
Proof.
  induction l as [| y l IH]; simpl; [reflexivity |].
  destruct (String.leb x y); [reflexivity |].
  transitivity (y :: x :: l); [constructor; exact IH | constructor].
Qed.

Lemma sort_perm (l : list string) : Permutation (Table.sort l) l.
Proof.
  induction l as [| x l IH]; simpl; [reflexivity |].
  rewrite insert_sorted_perm. constructor. exact IH.
Qed.

(** The record-header loop of [validate_custom_columns], for distinct
    record headers: the missing-header errors are those of the headers
    absent from the table, and each record header consumes one occurrence
    of itself from the table. *)
Lemma custom_header_loop_spec (rh tc : list string) :
  List.NoDup rh ->
  fst (Table.custom_header_loop rh tc) =
    map CustomHeaderNotInTable (List.filter (fun k => negb (mem k tc)) rh) /\
  forall x, count_occ String.string_dec (snd (Table.custom_header_loop rh tc)) x =
            count_occ String.string_dec tc x - (if mem x rh then 1 else 0).
Proof.
  intros Hnd. revert tc.
  induction Hnd as [| k rest Hk Hnd IH]; intros tc; simpl.
  - split; [reflexivity |]. intros x. lia.
  - destruct (py_index k tc) as [i |] eqn:E.
    + rewrite (py_index_remove_at k tc i E).
      destruct (IH (remove_first k tc)) as [H1 H2].
      assert (Hmk : mem k tc = true)
        by (apply mem_In; exact (py_index_Some_In k tc i E)).
      rewrite Hmk. simpl. split.
      * rewrite H1. f_equal. apply filter_ext_in.
        intros k' Hk'. rewrite mem_remove_first_neq; [reflexivity |].
        intros ->. contradiction.
      * intros x. rewrite H2, count_occ_remove_first.
        destruct (String.string_dec x k) as [-> | Hxk].
        -- rewrite String.eqb_refl.
           assert (Hr : mem k rest = false)
             by (apply Bool.not_true_is_false; rewrite mem_In; exact Hk).
           rewrite Hr. simpl. lia.
        -- rewrite (proj2 (String.eqb_neq x k) Hxk). simpl. lia.
    + destruct (IH tc) as [H1 H2].
      destruct (Table.custom_header_loop rest tc) as [errs leftover] eqn:E'.
      simpl in *.
      assert (Hmk : mem k tc = false)
        by (apply Bool.not_true_is_false; rewrite mem_In;
            exact (py_index_None k tc E)).
      rewrite Hmk. simpl. split; [rewrite H1; reflexivity |].
      intros x. rewrite H2.
      destruct (String.string_dec x k) as [-> | Hxk].
      * rewrite String.eqb_refl.
        assert (Hc : count_occ String.string_dec tc k = 0)
          by (apply count_occ_not_In; exact (py_index_None k tc E)).
        rewrite Hc. destruct (mem k rest); reflexivity.
      * rewrite (proj2 (String.eqb_neq x k) Hxk). reflexivity.
Qed.

(** C7 (counterexample). With two declared custom columns of which the
    table uses only one, [validate_custom_columns] produces two errors: the
    count mismatch and the missing-header error, not exactly one. *)
Lemma custom_columns_scenario_counterexample :
  Table.validate_custom_columns ["Annotation"]
    [("Annotation", "Source of annotation"); ("URL", "URL within ITSoneDB")] =
  [CustomCountMismatch; CustomHeaderNotInTable "URL"].
Proof. vm_compute. reflexivity. Qed.

(** C7 (amended). For distinct record headers (the keys of a dict),
    [validate_custom_columns] has four disjoint cases: both empty, no
    error; table headers without record contract, the undeclared-usage
    error; contract without table headers, the declared-but-unused error;
    both present, a count-mismatch error when the sizes differ, then one
    missing-header error for each record header (in sorted order) absent
    from the table, then one error listing the table headers left after
    each record header has consumed one occurrence of itself, if any are
    left.  With two declared columns and a table using exactly one of them,
    the errors are the count mismatch and the missing-header error naming
    the other column. *)
Theorem validate_custom_columns_reconciliation
    (table_custom_columns : list string) (record_custom_columns : pydict) :
  List.NoDup (map fst record_custom_columns) ->
  (match table_custom_columns, record_custom_columns with
   | [], [] =>
     Table.validate_custom_columns table_custom_columns record_custom_columns = []
   | _ :: _, [] =>
     Table.validate_custom_columns table_custom_columns record_custom_columns =
     [CustomColumnsUndeclared]
   | [], _ :: _ =>
     Table.validate_custom_columns table_custom_columns record_custom_columns =
     [CustomColumnsUnused]
   | _ :: _, _ :: _ =>
     exists leftover,
       Table.validate_custom_columns table_custom_columns record_custom_columns =
       (if Nat.eqb (length record_custom_columns) (length table_custom_columns)
        then [] else [CustomCountMismatch]) ++
       map CustomHeaderNotInTable
         (List.filter (fun k => negb (mem k table_custom_columns))
                      (Table.sort (map fst record_custom_columns))) ++
       (match leftover with [] => [] | _ => [TableHeadersNotInRecord leftover] end) /\
       (forall x, count_occ String.string_dec leftover x =
                  count_occ String.string_dec table_custom_columns x -
                  (if mem x (map fst record_custom_columns) then 1 else 0))
   end) /\
  (forall h1 h2 d1 d2 : string, h1 <> h2 ->
     Table.validate_custom_columns [h1] [(h1, d1); (h2, d2)] =
     [CustomCountMismatch; CustomHeaderNotInTable h2]).
Proof.
  intros Hnd. split.
  - destruct table_custom_columns as [| t0 ts];
      destruct record_custom_columns as [| r0 rs]; try reflexivity.
    set (t := t0 :: ts) in *. set (rec := r0 :: rs) in *.
    assert (Hpk := sort_perm (map fst rec)).
    assert (Hpt := sort_perm t).
    assert (Hnd' : List.NoDup (Table.sort (map fst rec)))
      by (apply (Permutation_NoDup (l := map fst rec));
          [symmetry; exact Hpk | exact Hnd]).
    destruct (custom_header_loop_spec (Table.sort (map fst rec))
                (Table.sort t) Hnd') as [H1 H2].
    change (Table.validate_custom_columns t rec) with
      ((if Nat.eqb (length (Table.sort (map fst rec))) (length (Table.sort t))
        then [] else [CustomCountMismatch]) ++
       let '(errs, leftover) :=
         Table.custom_header_loop (Table.sort (map fst rec)) (Table.sort t) in
       errs ++ (match leftover with [] => [] | _ => [TableHeadersNotInRecord leftover] end)).
    destruct (Table.custom_header_loop (Table.sort (map fst rec)) (Table.sort t))
      as [errs leftover].
    cbn [fst snd] in H1, H2. exists leftover. split.
    + rewrite (Permutation_length Hpk), (Permutation_length Hpt), length_map.
      f_equal. rewrite H1. f_equal. f_equal. apply filter_ext_in.
      intros k _. cbv beta. rewrite (mem_perm k (Table.sort t) t Hpt).
      reflexivity.
    + intros x. rewrite H2.
      rewrite (mem_perm x (Table.sort (map fst rec)) (map fst rec) Hpk).
      f_equal. apply Permutation_count_occ. exact Hpt.
  - intros h1 h2 d1 d2 Hne.
    assert (E12 : String.eqb h2 h1 = false) by
      (apply String.eqb_neq; intros ->; apply Hne; reflexivity).
    unfold Table.validate_custom_columns. simpl.
    destruct (String.leb h1 h2); simpl;
      rewrite ?String.eqb_refl, ?E12; reflexivity.
Qed.

Lemma validate_custom_columns_reconciliation_witness :
  Table.validate_custom_columns ["Annotation"]
    [("Annotation", "Source of annotation"); ("URL", "URL within ITSoneDB")] =
  [CustomCountMismatch; CustomHeaderNotInTable "URL"].
Proof.
  apply (proj2 (validate_custom_columns_reconciliation ["Annotation"]
    [("Annotation", "Source of annotation"); ("URL", "URL within ITSoneDB")]
    ltac:(repeat constructor; simpl; intuition discriminate))).
  discriminate.
Defined.

(** C9 (counterexample). A header list naming "local_identifier" twice:
    only one occurrence is popped, so after the call the caller's list,
    which is the returned custom-headers list, still holds a mandatory
    header. *)
Lemma mandatory_headers_duplicate_counterexample :
  In "local_identifier" Table.mandatory_headers /\
  exists errs,
    Table.validate_mandatory_headers
      ({[0 := ["local_identifier"; "local_identifier"]]} : gmap nat (list string))
      0 Table.mandatory_headers =
    Some (errs, 0, ({[0 := ["local_identifier"]]} : gmap nat (list string))).
Proof.
  split; [left; reflexivity |]. eexists. vm_compute. reflexivity.
Qed.

(** C9 (amended). [validate_mandatory_headers] works on the caller's list
    object in place: it returns that very reference as the custom headers,
    the store changes only at that reference, where the list has lost the
    first occurrence of each mandatory header found; when the headers are
    distinct (as pandas column names are), what remains is exactly the
    non-mandatory headers. *)
Theorem validate_mandatory_headers_in_place (h : gmap nat (list string))
    (input_headers : nat) (l mandatory_headers : list string) :
  h !! input_headers = Some l ->
  exists errs,
    Table.validate_mandatory_headers h input_headers mandatory_headers =
    Some (errs, input_headers,
          <[input_headers := remove_each mandatory_headers l]> h) /\
    (List.NoDup l -> forall x,
       In x (remove_each mandatory_headers l) <->
       In x l /\ ~ In x mandatory_headers).
Proof.
  intros Hl.
  destruct (mandatory_loop_heap h input_headers l mandatory_headers [] [] Hl)
    as (errs & found & H).
  unfold Table.validate_mandatory_headers. rewrite H.
  eexists. split; [reflexivity |].
  intros Hnd x. apply In_remove_each_NoDup. exact Hnd.
Qed.

Lemma validate_mandatory_headers_in_place_witness :
  exists errs,
    Table.validate_mandatory_headers
      ({[7 := ["local_identifier"; "Annotation"]]} : gmap nat (list string))
      7 Table.mandatory_headers =
    Some (errs, 7, ({[7 := ["Annotation"]]} : gmap nat (list string))).
Proof.
  assert (Hl : ({[7 := ["local_identifier"; "Annotation"]]} : gmap nat (list string))
                 !! 7 = Some ["local_identifier"; "Annotation"])
    by (vm_compute; reflexivity).
  destruct (validate_mandatory_headers_in_place _ 7 _ Table.mandatory_headers Hl)
    as (errs & H & _).
  exists errs. rewrite H. vm_compute. reflexivity.
Defined.

(** ** Further properties of the code *)

Lemma space_not_non_nucleotide (c : ascii) :
  py_isspace c = true -> Fasta.non_nucleotide c = false.
Proof.
  intros H.
  destruct c as [b0 b1 b2 b3 b4 b5 b6 b7].
  destruct b0, b1, b2, b3, b4, b5, b6, b7;
    vm_compute in H |- *; first [discriminate | reflexivity].
Qed.

(** [check_sequence] never reports more than one error for a line: the
    whitespace and non-nucleotide tests look at the same first character
    and exclude each other, and the null test only fires on the empty
    line, which the nucleotide pattern already accepts. *)
Theorem check_sequence_at_most_one_error (sequence_line : string) (n : nat) :
  length (Fasta.check_sequence sequence_line n) <= 1.
Proof.
  unfold Fasta.check_sequence.
  destruct sequence_line as [| c rest]; [simpl; lia |].
  destruct (match_star_dollar Fasta.nucleotide (String c rest)); [simpl; lia |].
  simpl.
  destruct (py_isspace c) eqn:Hs.
  - rewrite (space_not_non_nucleotide c Hs). simpl. lia.
  - destruct (Fasta.non_nucleotide c); simpl; lia.
Qed.

Lemma before_bar_app (id suffix : string) :
  ~ In "|"%char (list_ascii_of_string id) ->
  (suffix = "" \/ exists d, suffix = String "|"%char d) ->
  Fasta.before_bar (id ++ suffix) = id.
Proof.
  intros Hid Hsuf. induction id as [| c id IH]; simpl.
  - destruct Hsuf as [-> | [d ->]]; reflexivity.
  - simpl in Hid. destruct (Ascii.eqb_spec c "|"%char) as [-> | _];
      [exfalso; apply Hid; left; reflexivity |].
    f_equal. apply IH. intros H. apply Hid. right. exact H.
Qed.

Lemma py_index_spec (x : string) (l : list string) (i : nat) :
  py_index x l = Some i -> nth_error l i = Some x /\ ~ In x (firstn i l).
Proof.
  revert i. induction l as [| y l IH]; intros i; simpl; [discriminate |].
  destruct (String.eqb_spec x y) as [-> | Hne].
  - intros [= <-]. split; [reflexivity | simpl; auto].
  - destruct (py_index x l) as [j |] eqn:E; simpl; [| discriminate].
    intros [= <-]. destruct (IH j eq_refl) as [H1 H2]. split; [exact H1 |].
    simpl. intros [-> | H]; [apply Hne; reflexivity | exact (H2 H)].
Qed.

Lemma py_index_In (x : string) (l : list string) :
  In x l -> exists i, py_index x l = Some i.
Proof.
  intros Hin. destruct (py_index x l) as [i |] eqn:E; [eauto |].
  exfalso. exact (py_index_None x l E Hin).
Qed.

(** [check_identifier] reads the identifier between the leading ['>'] and
    the first ['|'] (or the end of the line, newline included): when that
    identifier is in the ledger, there is no error and the index returned
    is that of its first occurrence; otherwise the mismatch error names it
    and the index is 0. *)
Theorem check_identifier_first_match (id suffix : string)
    (remaining_ids : list string) (linecount : nat) :
  ~ In "|"%char (list_ascii_of_string id) ->
  (suffix = "" \/ exists d, suffix = String "|"%char d) ->
  (In id remaining_ids ->
   exists i,
     Fasta.check_identifier (String ">"%char (id ++ suffix)) remaining_ids linecount
       = ([], i) /\
     nth_error remaining_ids i = Some id /\ ~ In id (firstn i remaining_ids)) /\
  (~ In id remaining_ids ->
   Fasta.check_identifier (String ">"%char (id ++ suffix)) remaining_ids linecount
     = ([IdentifierNoMatch id linecount], 0)).
Proof.
  intros Hid Hsuf. unfold Fasta.check_identifier. simpl.
  rewrite (before_bar_app id suffix Hid Hsuf). split.
  - intros Hin. destruct (py_index_In id remaining_ids Hin) as [i E].
    rewrite E. exists i. split; [reflexivity | exact (py_index_spec _ _ _ E)].
  - intros Hn. destruct (py_index id remaining_ids) as [i |] eqn:E;
      [exfalso; apply Hn; exact (py_index_Some_In _ _ _ E) | reflexivity].
Qed.

Lemma check_identifier_first_match_witness :
  exists i,
    Fasta.check_identifier (String ">"%char ("ITS1" ++ "|Fungi")) ["ITS0"; "ITS1"; "ITS1"] 3
      = ([], i) /\
    nth_error ["ITS0"; "ITS1"; "ITS1"] i = Some "ITS1" /\
    ~ In "ITS1" (firstn i ["ITS0"; "ITS1"; "ITS1"]).
Proof.
  apply (proj1 (check_identifier_first_match "ITS1" "|Fungi" ["ITS0"; "ITS1"; "ITS1"] 3
              ltac:(simpl; intuition discriminate)
              ltac:(right; eexists; reflexivity))).
  simpl; auto.
Defined.

(** As [validate_metadata_table] composes them, the accession check decides
    the range check: an accession is present exactly when the cell is not
    empty (valid or not), and the range error for a missing accession is
    raised exactly when the accession is empty and a range is given. *)
Theorem accession_gates_range (insdc_sequence_accession insdc_sequence_range : string) :
  snd (Table.validate_insdc_sequence_accession insdc_sequence_accession)
    = negb (String.eqb insdc_sequence_accession "") /\
  (In (RangeWithoutAccession insdc_sequence_range)
      (Table.validate_insdc_sequence_range insdc_sequence_range
         (snd (Table.validate_insdc_sequence_accession insdc_sequence_accession)))
   <-> insdc_sequence_accession = "" /\ insdc_sequence_range <> "").
Proof.
  assert (Hp : snd (Table.validate_insdc_sequence_accession insdc_sequence_accession)
                 = negb (String.eqb insdc_sequence_accession "")).
  { unfold Table.validate_insdc_sequence_accession.
    destruct (String.eqb insdc_sequence_accession ""); reflexivity. }
  split; [exact Hp |]. rewrite Hp.
  unfold Table.validate_insdc_sequence_range.
  destruct (String.eqb_spec insdc_sequence_range "") as [Hr | Hr];
    destruct (String.eqb_spec insdc_sequence_accession "") as [Ha | Ha]; simpl.
  - split; [intros [] | intros [_ H]; congruence].
  - split; [intros [] | intros [H _]; congruence].
  - split; [auto |]. intros _. left. reflexivity.
  - split; [| intros [H _]; congruence].
    destruct (Table.range_regex insdc_sequence_range); simpl;
      [intros [] | intros [H | []]; discriminate].
Qed.

(** How the organism-name check feeds the tax-id check: without NCBI
    taxonomy the name lookup is never consulted, no tax id is expected and
    any non-empty tax id is an error; with NCBI taxonomy and an empty name,
    no tax id is expected either, so every tax id is a mismatch. *)
Theorem organism_tax_id_rows
    (lookup lookup' : string -> exc (list Table.row_msg * list Z))
    (local_organism_name : string) (ncbi_tax : bool) (input_ncbi_tax_id : Table.cell)
    (organism_errors : list Table.row_msg) (expected : list Z) :
  Table.validate_local_organism_name lookup local_organism_name ncbi_tax
    = Ok (organism_errors, expected) ->
  ncbi_tax = false \/ local_organism_name = "" ->
  Table.validate_local_organism_name lookup' local_organism_name ncbi_tax
    = Ok (organism_errors, expected) /\
  expected = [] /\
  Table.validate_ncbi_tax_id input_ncbi_tax_id expected ncbi_tax local_organism_name
    = (if ncbi_tax then [Table.NcbiTaxIdMismatch input_ncbi_tax_id local_organism_name]
       else if Table.cell_truthy input_ncbi_tax_id
            then [Table.NcbiTaxIdNotExpected input_ncbi_tax_id] else []).
Proof.
  intros H Hc. unfold Table.validate_local_organism_name in *.
  destruct Hc as [-> | ->].
  - destruct (String.eqb local_organism_name "");
      injection H as <- <-; repeat split;
      destruct input_ncbi_tax_id; reflexivity.
  - simpl in *. injection H as <- <-.
    repeat split; destruct ncbi_tax, input_ncbi_tax_id; reflexivity.
Qed.

Lemma organism_tax_id_rows_witness :
  Table.validate_local_organism_name (fun _ => Ok ([], [9606%Z])) "" true
    = Ok ([Table.NoOrganismName], []) /\
  Table.validate_ncbi_tax_id (Table.CellInt 9606) [] true ""
    = [Table.NcbiTaxIdMismatch (Table.CellInt 9606) ""].
Proof.
  destruct (organism_tax_id_rows (fun _ => Raise OSError) (fun _ => Ok ([], [9606%Z]))
              "" true (Table.CellInt 9606) [Table.NoOrganismName] []
              eq_refl (or_intror eq_refl)) as (H1 & _ & H3).
  split; [exact H1 | exact H3].
Defined.

(** [validate_file_content] reports one "required field not found" error
    per mandatory field that is not a key of the record, and nothing else:
    it returns no error exactly when every mandatory field is a key. *)
Theorem validate_file_content_missing (metadata_record_dict : pydict)
    (mandatory_record_content : list string) :
  Record.validate_file_content metadata_record_dict mandatory_record_content
    = map (fun _ => RequiredFieldNotFound)
          (List.filter (fun f => negb (mem f (map fst metadata_record_dict)))
             mandatory_record_content) /\
  (Record.validate_file_content metadata_record_dict mandatory_record_content = []
   <-> forall f, In f mandatory_record_content -> In f (map fst metadata_record_dict)).
Proof.
  assert (He : Record.validate_file_content metadata_record_dict mandatory_record_content
    = map (fun _ => RequiredFieldNotFound)
          (List.filter (fun f => negb (mem f (map fst metadata_record_dict)))
             mandatory_record_content)).
  { unfold Record.validate_file_content.
    induction mandatory_record_content as [| f m IH]; [reflexivity |].
    simpl. destruct (mem f (map fst metadata_record_dict)); simpl;
      [exact IH | f_equal; exact IH]. }
  split; [exact He |]. rewrite He. split.
  - intros H f Hf. apply mem_In.
    destruct (mem f (map fst metadata_record_dict)) eqn:E; [reflexivity |].
    exfalso. assert (Hin : In f (List.filter (fun f => negb (mem f (map fst metadata_record_dict)))
                                    mandatory_record_content)).
    { apply filter_In. rewrite E. auto. }
    destruct (List.filter _ _); [exact Hin | discriminate].
  - intros H. destruct (List.filter _ _) as [| g r] eqn:E; [reflexivity |].
    exfalso. assert (Hg : In g (g :: r)) by (left; reflexivity).
    rewrite <- E in Hg. apply filter_In in Hg as [Hg Hm].
    apply H, mem_In in Hg. rewrite Hg in Hm. discriminate.
Qed.

Lemma py_pop_index (x : string) (l : list string) (i : nat) :
  py_index x l = Some i -> py_pop i l = Ok (x, remove_first x l).
Proof.
  revert i. induction l as [| y l IH]; intros i; simpl; [discriminate |].
  destruct (String.eqb_spec x y) as [-> | Hne].
  - intros [= <-]. reflexivity.
  - destruct (py_index x l) as [j |] eqn:E; simpl; [| discriminate].
    intros [= <-]. simpl. rewrite (IH j eq_refl). reflexivity.
Qed.

Lemma py_pop_incl (i : nat) (l : list string) (p : string * list string) :
  py_pop i l = Ok p -> incl (snd p) l.
Proof.
  revert i p. induction l as [| y l IH]; intros i p;
    [destruct i; simpl; discriminate |].
  destruct i as [| i]; simpl.
  - intros [= <-]. simpl. intros z Hz. right. exact Hz.
  - destruct (py_pop i l) as [q | e] eqn:E; simpl; [| discriminate].
    intros [= <-]. simpl. intros z [-> | Hz]; [left; reflexivity |].
    right. exact (IH i q E z Hz).
Qed.

Lemma perm_remove_first (x : string) (l : list string) :
  In x l -> Permutation l (x :: remove_first x l).
Proof.
  induction l as [| y l IH]; simpl; [intros [] |].
  intros Hin. destruct (String.eqb_spec x y) as [-> | Hne]; [reflexivity |].
  destruct Hin as [-> | Hin]; [congruence |].
  etransitivity; [apply perm_skip, (IH Hin) | apply perm_swap].
Qed.

Lemma fasta_loop_app (st : Fasta.fasta_state) (l1 l2 : list string) :
  Fasta.fasta_loop st (l1 ++ l2) =
  exc_bind (Fasta.fasta_loop st l1) (fun st' => Fasta.fasta_loop st' l2).
Proof.
  revert st. induction l1 as [| line l1 IH]; intros st; [reflexivity |].
  simpl. destruct (Fasta.fasta_step st line); [apply IH | reflexivity].
Qed.

Lemma fasta_step_id_line (st : Fasta.fasta_state) (rest : string) (i : nat) :
  Fasta.flag st <> Fasta.FlagId ->
  py_index (Fasta.drop_first (Fasta.before_bar (String ">"%char rest)))
           (Fasta.remaining_ids st) = Some i ->
  Fasta.fasta_step st (String ">"%char rest) =
  Ok (Fasta.mkState (Fasta.fasta_errors st) (S (Fasta.linecount st)) Fasta.FlagId
        (remove_first (Fasta.drop_first (Fasta.before_bar (String ">"%char rest)))
                      (Fasta.remaining_ids st))).
Proof.
  intros Hfl Hi. destruct st as [e n fl ids]. simpl in *.
  unfold Fasta.check_identifier. simpl. rewrite Hi.
  destruct fl; [| congruence |]; simpl;
    rewrite (py_pop_index _ _ _ Hi); simpl; rewrite app_nil_r; reflexivity.
Qed.

Lemma fasta_step_seq_line (st : Fasta.fasta_state) (c : ascii) (rest : string) :
  Fasta.flag st = Fasta.FlagId -> c <> ">"%char ->
  Fasta.fasta_step st (String c rest) =
  Ok (Fasta.mkState (Fasta.fasta_errors st ++
                     Fasta.check_sequence (String c rest) (S (Fasta.linecount st)))
        (S (Fasta.linecount st)) Fasta.FlagSe (Fasta.remaining_ids st)).
Proof.
  intros Hfl Hc. destruct st as [e n fl ids]. simpl in *. subst fl.
  destruct (Ascii.eqb_spec c ">"%char) as [E | _]; [congruence | reflexivity].
Qed.

Lemma fasta_loop_records (recs : list (string * string)) (st : Fasta.fasta_state) :
  Fasta.flag st <> Fasta.FlagId ->
  Forall wellformed_record recs ->
  Permutation (map record_identifier recs) (Fasta.remaining_ids st) ->
  exists fl, fl <> Fasta.FlagId /\
    Fasta.fasta_loop st (record_lines recs) =
    Ok (Fasta.mkState (Fasta.fasta_errors st)
                      (Fasta.linecount st + 2 * length recs) fl []).
Proof.
  revert st. induction recs as [| r recs IH]; intros st Hfl Hwf Hp.
  - simpl in Hp. apply Permutation_nil in Hp.
    destruct st as [e n fl ids]. simpl in *. subst ids.
    exists fl. split; [exact Hfl |]. rewrite Nat.add_0_r. reflexivity.
  - inversion Hwf as [| ? ? Hr Hrecs]; subst.
    destruct Hr as [[rest Hid] [Hne Hseq]].
    destruct r as [idl seql]. simpl in Hid, Hne, Hseq. subst idl.
    destruct seql as [| c srest]; [congruence |].
    assert (Hc : c <> ">"%char).
    { intros ->. destruct srest as [| ? [| ? ?]]; vm_compute in Hseq; discriminate. }
    set (x := Fasta.drop_first (Fasta.before_bar (String ">"%char rest))).
    assert (Hin : In x (Fasta.remaining_ids st)).
    { eapply Permutation_in; [exact Hp | left; reflexivity]. }
    destruct (py_index_In _ _ Hin) as [i Hi].
    simpl record_lines. cbn [Fasta.fasta_loop].
    rewrite (fasta_step_id_line st rest i Hfl Hi). cbn [exc_bind Fasta.fasta_loop].
    rewrite fasta_step_seq_line by (simpl; auto). cbn [exc_bind Fasta.linecount
      Fasta.fasta_errors Fasta.remaining_ids].
    assert (Hcs : Fasta.check_sequence (String c srest) (S (S (Fasta.linecount st))) = []).
    { unfold Fasta.check_sequence. rewrite Hseq. reflexivity. }
    rewrite Hcs, app_nil_r.
    destruct (IH (Fasta.mkState (Fasta.fasta_errors st) (S (S (Fasta.linecount st)))
                   Fasta.FlagSe (remove_first x (Fasta.remaining_ids st))))
      as (fl & Hfl' & E); [simpl; discriminate | exact Hrecs | |].
    + simpl. apply (Permutation_cons_inv (a := x)).
      rewrite <- (perm_remove_first _ _ Hin). exact Hp.
    + exists fl. split; [exact Hfl' |]. fold x. rewrite E. simpl.
      do 2 f_equal. lia.
Qed.

(** A FASTA file made of well-formed records, one for each table
    identifier (in any order), passes [validate_txmb_fasta] with no
    error. *)
Theorem fasta_wellformed_no_errors (recs : list (string * string))
    (table_identifiers : list string) :
  Forall wellformed_record recs ->
  Permutation (map record_identifier recs) table_identifiers ->
  Fasta.validate_txmb_fasta (Some (record_lines recs)) table_identifiers = Ok [].
Proof.
  intros Hwf Hp. unfold Fasta.validate_txmb_fasta, Fasta.validate_txmb_fasta_lines.
  destruct (fasta_loop_records recs (Fasta.mkState [] 0 Fasta.FlagNone table_identifiers))
    as (fl & _ & E); [simpl; discriminate | exact Hwf | exact Hp |].
  rewrite E. simpl.
  replace (Nat.odd (length recs + (length recs + 0))) with false; [reflexivity |].
  unfold Nat.odd. replace (length recs + (length recs + 0)) with (2 * length recs) by lia.
  rewrite Nat.even_mul. reflexivity.
Qed.

(** Once every table identifier has been matched, one more identifier line
    makes [validate_txmb_fasta] raise IndexError (the empty ledger is
    popped at index 0) instead of reporting the extra record. *)
Theorem fasta_extra_record_raises (recs : list (string * string))
    (table_identifiers : list string) (rest : string) (post : list string) :
  Forall wellformed_record recs ->
  Permutation (map record_identifier recs) table_identifiers ->
  Fasta.validate_txmb_fasta (Some (record_lines recs ++ String ">"%char rest :: post))
    table_identifiers = Raise IndexError.
Proof.
  intros Hwf Hp. unfold Fasta.validate_txmb_fasta, Fasta.validate_txmb_fasta_lines.
  rewrite fasta_loop_app.
  destruct (fasta_loop_records recs (Fasta.mkState [] 0 Fasta.FlagNone table_identifiers))
    as (fl & Hfl & E); [simpl; discriminate | exact Hwf | exact Hp |].
  rewrite E. simpl. destruct fl; [reflexivity | congruence | reflexivity].
Qed.

Lemma fasta_wellformed_no_errors_witness :
  Fasta.validate_txmb_fasta
    (Some (record_lines [(line_of ">ITS1|Fungi", line_of "ACGTN");
                         (line_of ">ITS2|Fungi", line_of "GGCCA")]))
    ["ITS2"; "ITS1"] = Ok [].
Proof.
  apply (fasta_wellformed_no_errors
           [(line_of ">ITS1|Fungi", line_of "ACGTN");
            (line_of ">ITS2|Fungi", line_of "GGCCA")] ["ITS2"; "ITS1"]).
  - repeat constructor; try (eexists; reflexivity); try discriminate;
      vm_compute; reflexivity.
  - assert (E : map record_identifier
                  [(line_of ">ITS1|Fungi", line_of "ACGTN");
                   (line_of ">ITS2|Fungi", line_of "GGCCA")] = ["ITS1"; "ITS2"])
      by (vm_compute; reflexivity).
    rewrite E. apply perm_swap.
Defined.

Lemma fasta_extra_record_raises_witness :
  Fasta.validate_txmb_fasta
    (Some (record_lines [(line_of ">ITS1|Fungi", line_of "ACGTN")] ++
           [String ">"%char (line_of "ITS9|Fungi"); line_of "ACGT"]))
    ["ITS1"] = Raise IndexError.
Proof.
  apply (fasta_extra_record_raises [(line_of ">ITS1|Fungi", line_of "ACGTN")] ["ITS1"]
           (line_of "ITS9|Fungi") [line_of "ACGT"]).
  - repeat constructor; try (eexists; reflexivity); try discriminate;
      vm_compute; reflexivity.
  - assert (E : map record_identifier [(line_of ">ITS1|Fungi", line_of "ACGTN")] = ["ITS1"])
      by (vm_compute; reflexivity).
    rewrite E. reflexivity.
Defined.

Lemma check_sequence_loop_msgs (s : string) (n : nat) :
  forallb is_loop_msg (Fasta.check_sequence s n) = true.
Proof.
  unfold Fasta.check_sequence.
  destruct (match_star_dollar Fasta.nucleotide s); [reflexivity |].
  destruct (match_first py_isspace s), (match_first Fasta.non_nucleotide s),
    (String.eqb s ""); reflexivity.
Qed.

Lemma check_identifier_loop_msgs (id_line : string) (ids : list string) (n : nat) :
  forallb is_loop_msg (fst (Fasta.check_identifier id_line ids n)) = true.
Proof.
  unfold Fasta.check_identifier. destruct (py_index _ ids); reflexivity.
Qed.

Lemma fasta_step_inv (st st' : Fasta.fasta_state) (line : string) :
  Fasta.fasta_step st line = Ok st' ->
  Fasta.linecount st' = S (Fasta.linecount st) /\
  incl (Fasta.remaining_ids st') (Fasta.remaining_ids st) /\
  exists added, Fasta.fasta_errors st' = Fasta.fasta_errors st ++ added /\
                forallb is_loop_msg added = true.
Proof.
  destruct st as [e n fl ids]. unfold Fasta.fasta_step. cbn [Fasta.linecount
    Fasta.fasta_errors Fasta.remaining_ids Fasta.flag].
  destruct line as [| c rest]; [discriminate |].
  destruct (Ascii.eqb c ">"%char).
  - assert (Hid :
      (let '(id_errs, id_index) := Fasta.check_identifier (String c rest) ids (S n) in
       p <- py_pop id_index ids ;;
       Ok (Fasta.mkState (e ++ id_errs) (S n) Fasta.FlagId (snd p))) = Ok st' ->
      Fasta.linecount st' = S n /\ incl (Fasta.remaining_ids st') ids /\
      exists added, Fasta.fasta_errors st' = e ++ added /\
                    forallb is_loop_msg added = true).
    { pose proof (check_identifier_loop_msgs (String c rest) ids (S n)) as Hci.
      destruct (Fasta.check_identifier (String c rest) ids (S n)) as [id_errs idx].
      destruct (py_pop idx ids) as [q |] eqn:E; simpl; [| discriminate].
      intros [= <-]. cbn. split; [reflexivity | split; [exact (py_pop_incl _ _ _ E) |]].
      eexists; split; [reflexivity | exact Hci]. }
    destruct fl; [exact Hid | | exact Hid].
    intros [= <-]. cbn. split; [reflexivity | split; [apply incl_refl |]].
    eexists; split; reflexivity.
  - destruct fl; intros [= <-]; cbn; (split; [reflexivity | split; [apply incl_refl |]]).
    + exists []. rewrite app_nil_r. split; reflexivity.
    + eexists; split; [reflexivity | apply check_sequence_loop_msgs].
    + eexists; split; reflexivity.
Qed.

Lemma fasta_loop_inv (st st' : Fasta.fasta_state) (lines : list string) :
  Fasta.fasta_loop st lines = Ok st' ->
  Fasta.linecount st' = Fasta.linecount st + length lines /\
  incl (Fasta.remaining_ids st') (Fasta.remaining_ids st) /\
  exists added, Fasta.fasta_errors st' = Fasta.fasta_errors st ++ added /\
                forallb is_loop_msg added = true.
Proof.
  revert st. induction lines as [| line lines IH]; intros st.
  - intros [= <-]. simpl. split; [lia | split; [apply incl_refl |]].
    exists []. rewrite app_nil_r. split; reflexivity.
  - simpl. destruct (Fasta.fasta_step st line) as [st1 |] eqn:E1; [| discriminate].
    simpl. intros H.
    destruct (fasta_step_inv _ _ _ E1) as (Hn1 & Hi1 & a1 & He1 & Hf1).
    destruct (IH _ H) as (Hn2 & Hi2 & a2 & He2 & Hf2).
    split; [lia | split; [eapply incl_tran; eauto |]].
    exists (a1 ++ a2). rewrite He2, He1, app_assoc. split; [reflexivity |].
    rewrite forallb_app, Hf1, Hf2. reflexivity.
Qed.

Lemma unmatched_report_listed (acc ids listed : list string) :
  In (IdentifiersNotInFasta listed) (Fasta.unmatched_report acc ids) ->
  incl listed (acc ++ ids).
Proof.
  revert acc. induction ids as [| i ids IH]; intros acc; simpl; [intros [] |].
  intros [E | H].
  - injection E as <-. intros z Hz. apply in_app_or in Hz as [Hz | Hz].
    + apply in_or_app. left. exact Hz.
    + apply in_or_app. right. left. destruct Hz as [-> | []]. reflexivity.
  - intros z Hz. pose proof (IH _ H z Hz) as Hz'. rewrite <- app_assoc in Hz'. exact Hz'.
Qed.

Lemma unmatched_report_no_odd (acc ids : list string) :
  ~ In OddNumberOfLines (Fasta.unmatched_report acc ids).
Proof.
  revert acc. induction ids as [| i ids IH]; intros acc; simpl; [auto |].
  intros [E | H]; [discriminate | exact (IH _ H)].
Qed.

Lemma forallb_loop_msg_not_In (m : msg) (l : list msg) :
  forallb is_loop_msg l = true -> is_loop_msg m = false -> ~ In m l.
Proof.
  intros Hl Hm Hin. rewrite forallb_forall in Hl.
  rewrite (Hl m Hin) in Hm. discriminate.
Qed.

(** [validate_txmb_fasta] on a FASTA file it can read reports the odd
    number of lines error exactly when the file has an odd number of
    lines, whatever else is wrong with it. *)
Theorem fasta_odd_lines_exact (lines table_identifiers : list string)
    (errs : list msg) :
  Fasta.validate_txmb_fasta (Some lines) table_identifiers = Ok errs ->
  (In OddNumberOfLines errs <-> Nat.odd (length lines) = true).
Proof.
  unfold Fasta.validate_txmb_fasta, Fasta.validate_txmb_fasta_lines.
  destruct (Fasta.fasta_loop _ lines) as [st |] eqn:E; [| discriminate].
  simpl. intros H.
  destruct (fasta_loop_inv _ _ _ E) as (Hn & _ & added & He & Hf).
  simpl in Hn, He. rewrite Hn in H.
  assert (Hno : ~ In OddNumberOfLines
                  (Fasta.fasta_errors st ++ Fasta.unmatched_report [] (Fasta.remaining_ids st))).
  { rewrite He. simpl. intros Hin. apply in_app_or in Hin as [Hin | Hin].
    - exact (forallb_loop_msg_not_In OddNumberOfLines _ Hf eq_refl Hin).
    - exact (unmatched_report_no_odd _ _ Hin). }
  destruct (Nat.odd (length lines)); injection H as <-; split.
  - reflexivity.
  - intros _. apply in_or_app. right. left. reflexivity.
  - intros Hin. exfalso. exact (Hno Hin).
  - discriminate.
Qed.

(** Every identifier that [validate_txmb_fasta] reports as missing from
    the FASTA file is one of the table identifiers: the ledger only ever
    loses entries. *)
Theorem fasta_unmatched_from_table (lines table_identifiers listed : list string)
    (errs : list msg) :
  Fasta.validate_txmb_fasta (Some lines) table_identifiers = Ok errs ->
  In (IdentifiersNotInFasta listed) errs ->
  incl listed table_identifiers.
Proof.
  unfold Fasta.validate_txmb_fasta, Fasta.validate_txmb_fasta_lines.
  destruct (Fasta.fasta_loop _ lines) as [st |] eqn:E; [| discriminate].
  simpl. intros H Hin.
  destruct (fasta_loop_inv _ _ _ E) as (_ & Hi & added & He & Hf).
  simpl in Hi, He.
  assert (Hin' : In (IdentifiersNotInFasta listed)
                   (Fasta.fasta_errors st ++ Fasta.unmatched_report [] (Fasta.remaining_ids st))).
  { destruct (Nat.odd (Fasta.linecount st)); injection H as <-; [| exact Hin].
    apply in_app_or in Hin as [Hin | [Hin | []]]; [exact Hin | discriminate]. }
  rewrite He in Hin'. simpl in Hin'. apply in_app_or in Hin' as [Hin' | Hin'].
  - exfalso. exact (forallb_loop_msg_not_In (IdentifiersNotInFasta listed) _ Hf eq_refl Hin').
  - intros z Hz. apply Hi. exact (unmatched_report_listed _ _ _ Hin' z Hz).
Qed.

Lemma fasta_odd_lines_exact_witness :
  In OddNumberOfLines [IdentifierNoMatch (line_of "ITS1") 1;
                       IdentifiersNotInFasta ["ITS1"]; OddNumberOfLines] <->
  Nat.odd (length [String ">"%char (line_of "ITS1")]) = true.
Proof.
  apply (fasta_odd_lines_exact [String ">"%char (line_of "ITS1")] ["ITS1"; "ITS1"]
           [IdentifierNoMatch (line_of "ITS1") 1; IdentifiersNotInFasta ["ITS1"];
            OddNumberOfLines]).
  vm_compute. reflexivity.
Defined.

Lemma fasta_unmatched_from_table_witness :
  incl ["ITS2"] ["ITS1"; "ITS2"].
Proof.
  apply (fasta_unmatched_from_table
           [String ">"%char (line_of "ITS1|x"); line_of "ACGT"] ["ITS1"; "ITS2"] ["ITS2"]
           [IdentifiersNotInFasta ["ITS2"]]);
    [vm_compute; reflexivity | left; reflexivity].
Defined.



Lemma dict_set_fresh (k v : string) (d : pydict) :
  ~ In k (map fst d) -> dict_set k v d = d ++ [(k, v)].
Proof.
  induction d as [| [k0 v0] d IH]; simpl; [reflexivity |].
  intros Hn. destruct (String.eqb_spec k k0) as [-> | _]; [tauto |].
  rewrite IH by tauto. reflexivity.
Qed.

Lemma firstn_S_snoc {A} (l : list A) (j : nat) (x : A) :
  nth_error l j = Some x -> firstn (S j) l = firstn j l ++ [x].
Proof.
  revert j. induction l as [| y l IH]; intros j; [destruct j; discriminate |].
  destruct j as [| j]; simpl.
  - intros [= ->]. reflexivity.
  - intros H. rewrite (IH j H). reflexivity.
Qed.

Lemma nth_error_combine_Some {A B} (a : list A) (b : list B) (j : nat) (x : A) (y : B) :
  nth_error a j = Some x -> nth_error b j = Some y ->
  nth_error (combine a b) j = Some (x, y).
Proof.
  revert b j. induction a as [| x0 a IH]; intros b j; [destruct j; discriminate |].
  destruct b as [| y0 b]; [destruct j; discriminate |].
  destruct j as [| j]; simpl; [congruence | apply IH].
Qed.

Lemma map_fst_combine {A B} (a : list A) (b : list B) :
  length a = length b -> map fst (combine a b) = a.
Proof.
  revert b. induction a as [| x a IH]; intros [| y b]; simpl; try discriminate; auto.
  intros [= H]. rewrite (IH b H). reflexivity.
Qed.

Lemma custom_col_loop_pairs (raw : pydict) (headers descs : list string) :
  length descs = length headers -> List.NoDup headers ->
  (forall i h d, nth_error headers i = Some h -> nth_error descs i = Some d ->
     dict_get ("CUSTOMCOLUMNHEADER" ++ py_str_nat (S i)) raw = Some h /\
     dict_get (("CUSTOMCOLUMNHEADER" ++ py_str_nat (S i)) ++ "DESCRIPTION") raw = Some d) ->
  forall fuel j, j + fuel = length headers ->
  Record.custom_col_loop raw j fuel [] (firstn j (combine headers descs))
    = ([], combine headers descs).
Proof.
  intros Hlen Hnd Hget fuel. induction fuel as [| f IH]; intros j Hj; simpl.
  - rewrite List.firstn_all2; [reflexivity |].
    rewrite length_combine. lia.
  - assert (Hjh : j < length headers) by lia.
    destruct (nth_error headers j) as [h |] eqn:Eh;
      [| apply nth_error_None in Eh; lia].
    destruct (nth_error descs j) as [d |] eqn:Ed;
      [| apply nth_error_None in Ed; lia].
    destruct (Hget j h d Eh Ed) as [Hk Hv]. rewrite Hv, Hk.
    rewrite dict_set_fresh.
    + rewrite <- (firstn_S_snoc _ _ _ (nth_error_combine_Some _ _ _ _ _ Eh Ed)).
      apply IH. lia.
    + rewrite <- List.firstn_map, (map_fst_combine _ _ (eq_sym Hlen)).
      rewrite <- (List.firstn_skipn_middle _ _ Eh) in Hnd.
      intros Hin. apply (NoDup_remove_2 _ _ _ Hnd). apply in_or_app. left. exact Hin.
Qed.

(** [generate_custom_col_dict] pairs the value of each manifest line
    CUSTOMCOLUMNHEADER<i> with that of CUSTOMCOLUMNHEADER<i>DESCRIPTION:
    when the raw custom lines are exactly these pairs, for distinct header
    names, it returns no error and the headers with their descriptions, in
    the order of i. *)
Theorem generate_custom_col_dict_pairs (raw_custom_columns : pydict)
    (headers descs : list string) :
  length raw_custom_columns = 2 * length headers ->
  length descs = length headers -> List.NoDup headers ->
  (forall i h d, nth_error headers i = Some h -> nth_error descs i = Some d ->
     dict_get ("CUSTOMCOLUMNHEADER" ++ py_str_nat (S i)) raw_custom_columns = Some h /\
     dict_get (("CUSTOMCOLUMNHEADER" ++ py_str_nat (S i)) ++ "DESCRIPTION")
              raw_custom_columns = Some d) ->
  Record.generate_custom_col_dict raw_custom_columns = ([], combine headers descs).
Proof.
  intros Hraw Hlen Hnd Hget. unfold Record.generate_custom_col_dict.
  rewrite Hraw, Nat.even_mul. simpl Nat.even. cbn [orb].
  rewrite Nat.mul_comm, Nat.div_mul by discriminate.
  exact (custom_col_loop_pairs _ _ _ Hlen Hnd Hget (length headers) 0 eq_refl).
Qed.

Lemma generate_custom_col_dict_pairs_witness :
  Record.generate_custom_col_dict
    [("CUSTOMCOLUMNHEADER1", "depth"); ("CUSTOMCOLUMNHEADER2", "site");
     ("CUSTOMCOLUMNHEADER2DESCRIPTION", "sampling site");
     ("CUSTOMCOLUMNHEADER1DESCRIPTION", "sampling depth")]
  = ([], combine ["depth"; "site"] ["sampling depth"; "sampling site"]).
Proof.
  apply generate_custom_col_dict_pairs; [reflexivity | reflexivity | |].
  - repeat constructor; simpl; intuition discriminate.
  - intros [| [| i]] h d Eh Ed; simpl in Eh, Ed.
    + injection Eh as <-. injection Ed as <-. split; vm_compute; reflexivity.
    + injection Eh as <-. injection Ed as <-. split; vm_compute; reflexivity.
    + destruct i; discriminate.
Defined.















Lemma filter_id_forallb {A} (f : A -> bool) (l : list A) :
  List.filter f l = l <-> forallb f l = true.
Proof.
  induction l as [| x l IH]; simpl; [tauto |].
  destruct (f x) eqn:E; simpl.
  - rewrite <- IH. split; [intros [= H]; exact H | intros ->; reflexivity].
  - split; [| discriminate]. intros H.
    assert (Hle := List.filter_length_le f l). rewrite H in Hle. simpl in Hle. lia.
Qed.

Lemma mandatory_loop_errors (h : gmap nat (list string)) (p : nat)
    (l ms : list string) (errs : list msg) (found : list string) :
  h !! p = Some l -> List.NoDup ms ->
  exists h',
    Table.mandatory_loop h p ms errs found =
    Some (h', errs ++ map MandatoryHeaderMissing (List.filter (fun m => negb (mem m l)) ms),
          found ++ List.filter (fun m => mem m l) ms).
Proof.
  revert h l errs found.
  induction ms as [| m ms IH]; intros h l errs found Hl Hnd; simpl.
  - exists h. rewrite !app_nil_r. reflexivity.
  - inversion Hnd as [| ? ? Hm Hms]; subst.
    assert (Hext : forall l', (forall x, In x ms -> mem x l' = mem x l) ->
              List.filter (fun m0 => negb (mem m0 l')) ms =
              List.filter (fun m0 => negb (mem m0 l)) ms /\
              List.filter (fun m0 => mem m0 l') ms = List.filter (fun m0 => mem m0 l) ms).
    { intros l' Hx. split; apply filter_ext_in; intros x Hxin; rewrite (Hx x Hxin);
        reflexivity. }
    rewrite Hl. destruct (py_index m l) as [i |] eqn:E.
    + assert (Hmem : mem m l = true) by (apply mem_In; exact (py_index_Some_In _ _ _ E)).
      rewrite Hmem. simpl.
      destruct (IH (<[p := Table.remove_at i l]> h) (Table.remove_at i l)
                   errs (found ++ [nth i l ""])) as (h' & H);
        [apply lookup_insert_eq | exact Hms |].
      exists h'. rewrite H.
      destruct (Hext (Table.remove_at i l)) as [Ha Hb].
      { intros x Hx. rewrite (py_index_remove_at m l i E).
        apply mem_remove_first_neq. intros ->. exact (Hm Hx). }
      rewrite Ha, Hb.
      assert (Hn : nth i l "" = m).
      { apply nth_error_nth. exact (proj1 (py_index_spec _ _ _ E)). }
      rewrite Hn, <- app_assoc. reflexivity.
    + assert (Hmem : mem m l = false).
      { destruct (mem m l) eqn:Em; [| reflexivity].
        apply mem_In in Em. exfalso. exact (py_index_None _ _ E Em). }
      rewrite Hmem. simpl.
      destruct (IH h l (errs ++ [MandatoryHeaderMissing m]) found Hl Hms) as (h' & H).
      exists h'. rewrite H, <- app_assoc. reflexivity.
Qed.

(** For a list of distinct mandatory headers, [validate_mandatory_headers]
    reports, in the order of that list, one error per header missing from
    the table's headers, followed by the summary error exactly when at
    least one is missing. *)
Theorem validate_mandatory_headers_errors (h : gmap nat (list string))
    (input_headers : nat) (l mandatory_headers : list string) :
  h !! input_headers = Some l -> List.NoDup mandatory_headers ->
  exists h',
    Table.validate_mandatory_headers h input_headers mandatory_headers =
    Some (map MandatoryHeaderMissing
            (List.filter (fun m => negb (mem m l)) mandatory_headers) ++
          (if forallb (fun m => mem m l) mandatory_headers then []
           else [MandatoryHeadersNotFound mandatory_headers]),
          input_headers, h').
Proof.
  intros Hl Hnd. unfold Table.validate_mandatory_headers.
  destruct (mandatory_loop_errors h input_headers l mandatory_headers [] [] Hl Hnd)
    as (h' & H).
  rewrite H. exists h'. simpl.
  destruct (forallb (fun m => mem m l) mandatory_headers) eqn:Ef.
  - rewrite bool_decide_eq_true_2; [rewrite app_nil_r; reflexivity |].
    symmetry. apply filter_id_forallb. exact Ef.
  - rewrite bool_decide_eq_false_2; [reflexivity |].
    intros Heq. symmetry in Heq. apply filter_id_forallb in Heq. congruence.
Qed.

Lemma validate_mandatory_headers_errors_witness :
  exists h',
    Table.validate_mandatory_headers
      {[7 := ["sequence_identifier"; "ncbi_tax_id"; "depth"]]} 7 Table.mandatory_headers =
    Some (map MandatoryHeaderMissing
            (List.filter (fun m => negb (mem m ["sequence_identifier"; "ncbi_tax_id"; "depth"]))
                         Table.mandatory_headers) ++
          (if forallb (fun m => mem m ["sequence_identifier"; "ncbi_tax_id"; "depth"])
                      Table.mandatory_headers then []
           else [MandatoryHeadersNotFound Table.mandatory_headers]),
          7, h').
Proof.
  apply validate_mandatory_headers_errors.
  - apply lookup_insert_eq.
  - vm_compute. repeat constructor; simpl; intuition discriminate.
Defined.

(** When the custom columns of the table are those the manifest declares
    (the same names, in any order, none repeated), [validate_custom_columns]
    reports no error. *)
Theorem validate_custom_columns_matching
    (table_custom_columns : list string) (record_custom_columns : pydict) :
  table_custom_columns <> [] ->
  List.NoDup (map fst record_custom_columns) ->
  Permutation table_custom_columns (map fst record_custom_columns) ->
  Table.validate_custom_columns table_custom_columns record_custom_columns = [].
Proof.
  intros Hne Hnd Hp.
  destruct table_custom_columns as [| t0 ts]; [contradiction |].
  destruct record_custom_columns as [| r0 rs];
    [apply Permutation_length in Hp; discriminate |].
  set (t := t0 :: ts) in *. set (rec := r0 :: rs) in *.
  assert (Hpk := sort_perm (map fst rec)).
  assert (Hpt := sort_perm t).
  assert (Hnd' : List.NoDup (Table.sort (map fst rec)))
    by (apply (Permutation_NoDup (l := map fst rec));
        [symmetry; exact Hpk | exact Hnd]).
  destruct (custom_header_loop_spec (Table.sort (map fst rec))
              (Table.sort t) Hnd') as [H1 H2].
  change (Table.validate_custom_columns t rec) with
    ((if Nat.eqb (length (Table.sort (map fst rec))) (length (Table.sort t))
      then [] else [CustomCountMismatch]) ++
     let '(errs, leftover) :=
       Table.custom_header_loop (Table.sort (map fst rec)) (Table.sort t) in
     errs ++ (match leftover with [] => [] | _ => [TableHeadersNotInRecord leftover] end)).
  destruct (Table.custom_header_loop (Table.sort (map fst rec)) (Table.sort t))
    as [errs leftover].
  cbn [fst snd] in H1, H2.
  rewrite (Permutation_length Hpk), (Permutation_length Hpt), <- (Permutation_length Hp),
    Nat.eqb_refl. simpl.
  assert (Herrs : errs = []).
  { rewrite H1. destruct (List.filter _ _) as [| k r] eqn:E; [reflexivity |].
    exfalso. assert (Hk : In k (k :: r)) by (left; reflexivity).
    rewrite <- E in Hk. apply filter_In in Hk as [Hk Hm].
    rewrite (mem_perm k (Table.sort t) (map fst rec)) in Hm
      by (etransitivity; [exact Hpt | exact Hp]).
    apply Permutation_in with (l' := map fst rec) in Hk; [| exact Hpk].
    apply mem_In in Hk. rewrite Hk in Hm. discriminate. }
  assert (Hleft : leftover = []).
  { destruct leftover as [| a r]; [reflexivity | exfalso].
    specialize (H2 a). rewrite count_occ_cons_eq in H2 by reflexivity.
    rewrite (proj1 (Permutation_count_occ String.string_dec (Table.sort t) (map fst rec))
               (Permutation_trans Hpt Hp) a) in H2.
    rewrite (mem_perm a (Table.sort (map fst rec)) (map fst rec) Hpk) in H2.
    assert (Hle := proj1 (NoDup_count_occ String.string_dec (map fst rec)) Hnd a).
    destruct (mem a (map fst rec)) eqn:Em.
    - lia.
    - assert (Hz : count_occ String.string_dec (map fst rec) a = 0).
      { apply count_occ_not_In. intros Hin. apply mem_In in Hin. congruence. }
      lia. }
  rewrite Herrs, Hleft. reflexivity.
Qed.

Lemma validate_custom_columns_matching_witness :
  Table.validate_custom_columns ["site"; "depth"]
    [("depth", "sampling depth"); ("site", "sampling site")] = [].
Proof.
  apply validate_custom_columns_matching.
  - discriminate.
  - repeat constructor; simpl; intuition discriminate.
  - apply perm_swap.
Defined.
